(** * The MongoEngine / Django authentication bridge

    A shallow embedding of [mongoengine/django/mongo_auth/models.py]: the
    module-level constant [MONGOENGINE_USER_DOCUMENT] and the class
    [MongoUserManager] with its methods [contribute_to_class],
    [_get_user_document], [get], [db], [get_empty_query_set] and
    [get_query_set].

    Python objects the manager touches are modelled by a small universe of
    values; the manager's own attributes, the relational model classes it
    mutates, the relational tables and the document collections live in an
    explicit [World] that every method threads through a state-and-exception
    monad. *)

From Stdlib Require Import String Ascii List.
From stdpp Require Import base option gmap strings list.

Local Open Scope string_scope.

(** ** Python strings: [str.rindex] and slicing *)

Module PyStr.

(** [rfind_from c s i]: the highest index (counted from [i] for the head of
    [s]) at which the character [c] occurs in [s]. *)
Fixpoint rfind_from (c : ascii) (s : string) (i : nat) : option nat :=
  match s with
  | EmptyString => None
  | String a s' =>
      match rfind_from c s' (S i) with
      | Some j => Some j
      | None => if Ascii.eqb a c then Some i else None
      end
  end.

(** [s.rindex(c)] for a one-character separator; [None] stands for the
    [ValueError] Python raises when the separator does not occur. *)
Definition rindex (s : string) (c : ascii) : option nat := rfind_from c s 0.

(** [s[:n]] *)
Fixpoint take (n : nat) (s : string) : string :=
  match n, s with
  | S n', String a s' => String a (take n' s')
  | _, _ => EmptyString
  end.

(** [s[n:]] *)
Fixpoint drop (n : nat) (s : string) : string :=
  match n, s with
  | S n', String _ s' => drop n' s'
  | _, _ => s
  end.

(** [c in s] *)
Fixpoint occurs (c : ascii) (s : string) : bool :=
  match s with
  | EmptyString => false
  | String a s' => Ascii.eqb a c || occurs c s'
  end.

(** [sub in s], as a proposition. *)
Definition contains (s sub : string) : Prop :=
  exists pre post : string, s = pre ++ sub ++ post.

End PyStr.

(** ** Exceptions *)

(** The two kinds of classes that own a [DoesNotExist] exception class. *)
Inductive class_ref :=
| DocumentClass (qualname : string)   (* a MongoEngine document class *)
| ModelClass (name : string).         (* a Django (relational) model class *)

Inductive exc_class :=
| ImportError
| ValueError
| AttributeError
| RuntimeError
| NotImplementedError
| ImproperlyConfigured
| DoesNotExist (owner : class_ref)    (* [owner.DoesNotExist] *)
| OtherError (name : string).

Record exception := Exc { exc_type : exc_class; exc_msg : string }.

#[global] Instance class_ref_eq_dec : EqDecision class_ref.
Proof. solve_decision. Defined.

#[global] Instance exc_class_eq_dec : EqDecision exc_class.
Proof. solve_decision. Defined.

Inductive result (A : Type) :=
| Return (a : A)
| Raise (e : exception).

Arguments Return {A} a.
Arguments Raise {A} e.

(** ** Python values *)

(** A document schema: the class named by the configuration string.  The two
    attributes the bridge reads may be missing from the class. *)
Record Document := {
  doc_name : string;
  USERNAME_FIELD : option string;
  REQUIRED_FIELDS : option (list string)
}.

(** Modelled from the spec: a result set of the document layer, whose
    implementation is not among the sources.  It records the document class
    it ranges over and whether it was obtained through [none()]. *)
Record QuerySet := {
  qs_document : Document;
  qs_is_none : bool
}.

Inductive pyobj :=
| PyNone
| PyModelClass (name : string)            (* reference to a relational model class *)
| PyDocument (d : Document)               (* a document class *)
| PyQuerySet (q : QuerySet)
| PyManager                               (* the manager itself *)
| PyInstance (fields : gmap string string)  (* a stored document *)
| PyOpaque (repr : string).               (* any other object *)

(** [django.utils.translation.ugettext_lazy] applied to a message id. *)
Inductive lazy_text := ugettext_lazy (msgid : string).

(** [django.db.models.CharField]; [field_name] is set when the field is
    contributed to a class. *)
Record CharField := {
  verbose_name : lazy_text;
  max_length : nat;
  unique : bool;
  field_name : option string
}.

(** [models.CharField(label, max_length=n, unique=u)]. *)
Definition models_CharField (label : lazy_text) (n : nat) (u : bool) : CharField :=
  {| verbose_name := label; max_length := n; unique := u; field_name := None |}.

(** A relational model class, as far as the bridge reads and writes it. *)
Record ModelCls := {
  cls_USERNAME_FIELD : option string;
  cls_REQUIRED_FIELDS : option (list string);
  cls_fields : list CharField;      (* fields in the order they were contributed *)
  cls_managers : list string        (* attribute names bound to the manager *)
}.

Definition empty_cls : ModelCls :=
  {| cls_USERNAME_FIELD := None; cls_REQUIRED_FIELDS := None;
     cls_fields := []; cls_managers := [] |}.

(** ** The world *)

Record World := {
  self_model : pyobj;                  (* [self.model] *)
  self_dj_model : option pyobj;        (* [self.dj_model]; [None] while unset *)
  classes : gmap string ModelCls;      (* relational model classes, by name *)
  tables : gmap string (list (gmap string string));
                                       (* relational table behind each class *)
  collections : gmap string (list (gmap string string))
                                       (* stored documents, by document class *)
}.

Definition set_self_model (o : pyobj) (w : World) : World :=
  {| self_model := o; self_dj_model := self_dj_model w; classes := classes w;
     tables := tables w; collections := collections w |}.

Definition set_self_dj_model (o : pyobj) (w : World) : World :=
  {| self_model := self_model w; self_dj_model := Some o; classes := classes w;
     tables := tables w; collections := collections w |}.

Definition set_classes (c : gmap string ModelCls) (w : World) : World :=
  {| self_model := self_model w; self_dj_model := self_dj_model w; classes := c;
     tables := tables w; collections := collections w |}.

(** The class object behind a reference. *)
Definition cls_of (w : World) (r : string) : ModelCls :=
  default empty_cls (classes w !! r).

Definition update_cls (r : string) (f : ModelCls -> ModelCls) (w : World) : World :=
  set_classes (<[r := f (cls_of w r)]> (classes w)) w.

(** ** State and exception monad *)

Definition M (A : Type) : Type := World -> result A * World.

Definition ret {A} (a : A) : M A := fun w => (Return a, w).

Definition raise {A} (e : exception) : M A := fun w => (Raise e, w).

Definition bind {A B} (m : M A) (k : A -> M B) : M B :=
  fun w =>
    match m w with
    | (Return a, w') => k a w'
    | (Raise e, w') => (Raise e, w')
    end.

(** [try: body except: handler]; the handler decides whether the exception
    matches its clause and re-raises it otherwise. *)
Definition try_except {A} (body : M A) (handler : exception -> M A) : M A :=
  fun w =>
    match body w with
    | (Return a, w') => (Return a, w')
    | (Raise e, w') => handler e w'
    end.

Definition lift {A} (r : result A) : M A := fun w => (r, w).

Definition gets {A} (f : World -> A) : M A := fun w => (Return (f w), w).

Definition modify (f : World -> World) : M unit := fun w => (Return tt, f w).

Declare Scope py_scope.
Delimit Scope py_scope with py.
Notation "x <- m ;; k" := (bind m (fun x => k))
  (at level 100, m at next level, right associativity) : py_scope.
Notation "m ;; k" := (bind m (fun _ => k))
  (at level 100, right associativity) : py_scope.
Local Open Scope py_scope.

(** [for x in l: body x] *)
Fixpoint for_each {A} (l : list A) (body : A -> M unit) : M unit :=
  match l with
  | [] => ret tt
  | x :: l' => body x ;; for_each l' body
  end.

(** ** Attribute access on the objects the bridge handles *)

Definition attribute_error {A} (attr : string) : result A :=
  Raise (Exc AttributeError attr).

(** [getattr(module, attr)] on an imported module. *)
Definition getattr (module : gmap string pyobj) (attr : string) : result pyobj :=
  match module !! attr with
  | Some v => Return v
  | None => attribute_error attr
  end.

(** [self.dj_model]: the attribute does not exist before the manager is
    attached. *)
Definition get_self_dj_model : M pyobj :=
  fun w =>
    match self_dj_model w with
    | Some o => (Return o, w)
    | None => (attribute_error "dj_model", w)
    end.

(** [o.USERNAME_FIELD] *)
Definition get_USERNAME_FIELD (o : pyobj) : M string :=
  fun w =>
    match o with
    | PyDocument d =>
        (from_option Return (attribute_error "USERNAME_FIELD") (USERNAME_FIELD d), w)
    | PyModelClass r =>
        (from_option Return (attribute_error "USERNAME_FIELD")
           (cls_USERNAME_FIELD (cls_of w r)), w)
    | _ => (attribute_error "USERNAME_FIELD", w)
    end.

(** [o.REQUIRED_FIELDS] *)
Definition get_REQUIRED_FIELDS (o : pyobj) : M (list string) :=
  fun w =>
    match o with
    | PyDocument d =>
        (from_option Return (attribute_error "REQUIRED_FIELDS") (REQUIRED_FIELDS d), w)
    | PyModelClass r =>
        (from_option Return (attribute_error "REQUIRED_FIELDS")
           (cls_REQUIRED_FIELDS (cls_of w r)), w)
    | _ => (attribute_error "REQUIRED_FIELDS", w)
    end.

(** [o.USERNAME_FIELD = v].  The bridge assigns attributes to relational
    model classes only; these are the mutable objects of the world. *)
Definition set_USERNAME_FIELD (o : pyobj) (v : string) : M unit :=
  match o with
  | PyModelClass r =>
      modify (update_cls r (fun c =>
        {| cls_USERNAME_FIELD := Some v;
           cls_REQUIRED_FIELDS := cls_REQUIRED_FIELDS c;
           cls_fields := cls_fields c; cls_managers := cls_managers c |}))
  | _ => lift (attribute_error "USERNAME_FIELD")
  end.

(** [o.REQUIRED_FIELDS = v] *)
Definition set_REQUIRED_FIELDS (o : pyobj) (v : list string) : M unit :=
  match o with
  | PyModelClass r =>
      modify (update_cls r (fun c =>
        {| cls_USERNAME_FIELD := cls_USERNAME_FIELD c;
           cls_REQUIRED_FIELDS := Some v;
           cls_fields := cls_fields c; cls_managers := cls_managers c |}))
  | _ => lift (attribute_error "REQUIRED_FIELDS")
  end.

(** [o.DoesNotExist]: document classes and relational model classes each own
    an exception class of that name. *)
Definition get_DoesNotExist (o : pyobj) : result exc_class :=
  match o with
  | PyDocument d => Return (DoesNotExist (DocumentClass (doc_name d)))
  | PyModelClass r => Return (DoesNotExist (ModelClass r))
  | _ => attribute_error "DoesNotExist"
  end.

(** The default query entry point of a document class. *)
Definition Document_objects (d : Document) : QuerySet :=
  {| qs_document := d; qs_is_none := false |}.

(** [o.objects]: a document class answers with its default query set; a
    relational class answers with the manager attached under that name. *)
Definition get_objects (o : pyobj) : M pyobj :=
  fun w =>
    match o with
    | PyDocument d => (Return (PyQuerySet (Document_objects d)), w)
    | PyModelClass r =>
        if decide ("objects" ∈ cls_managers (cls_of w r))
        then (Return PyManager, w)
        else (attribute_error "objects", w)
    | _ => (attribute_error "objects", w)
    end.

(** ** The framework's side of class contribution *)

(** [field.contribute_to_class(cls, name)]: the field takes the name and is
    appended to the fields of the class. *)
Definition Field_contribute_to_class (f : CharField) (cls : pyobj) (name : string) : M unit :=
  match cls with
  | PyModelClass r =>
      modify (update_cls r (fun c =>
        {| cls_USERNAME_FIELD := cls_USERNAME_FIELD c;
           cls_REQUIRED_FIELDS := cls_REQUIRED_FIELDS c;
           cls_fields := cls_fields c ++
             [ {| verbose_name := verbose_name f; max_length := max_length f;
                  unique := unique f; field_name := Some name |} ];
           cls_managers := cls_managers c |}))
  | _ => lift (attribute_error "_meta")
  end.

(** [super(MongoUserManager, self).contribute_to_class(model, name)]: the
    base manager records the class as [self.model] and binds itself to the
    class under [name]. *)
Definition UserManager_contribute_to_class (model : string) (name : string) : M unit :=
  modify (fun w =>
    set_self_model (PyModelClass model)
      (update_cls model (fun c =>
         {| cls_USERNAME_FIELD := cls_USERNAME_FIELD c;
            cls_REQUIRED_FIELDS := cls_REQUIRED_FIELDS c;
            cls_fields := cls_fields c;
            cls_managers := name :: cls_managers c |}) w)).

(** ** The document layer *)

(** Positional and keyword criteria of a lookup. *)
Record criteria := {
  c_args : list pyobj;
  c_kwargs : list (string * string)
}.

(** Modelled from the spec: the document layer's [none()], its "empty result
    set" constructor; the query-set implementation of the document layer is
    not among the sources. *)
Definition QuerySet_none (q : QuerySet) : QuerySet :=
  {| qs_document := qs_document q; qs_is_none := true |}.

(** Modelled from the spec: the size of a result set over the stored
    documents; a set built by [none()] is empty, the default query entry
    point ranges over every stored document of its class. *)
Definition QuerySet_count (q : QuerySet)
    (store : gmap string (list (gmap string string))) : nat :=
  if qs_is_none q then 0
  else length (default [] (store !! doc_name (qs_document q))).

(** [o.none()] on what [self.model.objects] answered.  On the manager itself
    the base class forwards [none()] to [get_empty_query_set()], which asks
    again: the recursion ends in Python's depth limit. *)
Definition call_none (o : pyobj) : M pyobj :=
  match o with
  | PyQuerySet q => ret (PyQuerySet (QuerySet_none q))
  | PyManager => raise (Exc RuntimeError "maximum recursion depth exceeded")
  | _ => lift (attribute_error "none")
  end.

Section Bridge.

(** The Django settings object, the importer and the document layer's
    lookup are collaborators of the bridge. *)
Variable settings : gmap string string.
Variable import_module : string -> result (gmap string pyobj).
Variable document_get :
  QuerySet -> criteria -> gmap string (list (gmap string string)) -> result pyobj.

(** [MONGOENGINE_USER_DOCUMENT = getattr(settings,
    'MONGOENGINE_USER_DOCUMENT', 'mongoengine.django.auth.User')] *)
Definition MONGOENGINE_USER_DOCUMENT : string :=
  default "mongoengine.django.auth.User" (settings !! "MONGOENGINE_USER_DOCUMENT").

(** The message of the configuration error. *)
Definition import_error_message (name : string) : string :=
  "Error importing " ++ name ++ ", please check settings.MONGOENGINE_USER_DOCUMENT".

(** [o.get] applied to the criteria, on what [get_query_set()] answered.  On the
    manager itself the call re-enters [get] without end and Python stops
    it at its recursion depth limit. *)
Definition call_get (o : pyobj) (c : criteria) : M pyobj :=
  match o with
  | PyQuerySet q => fun w => (document_get q c (collections w), w)
  | PyManager => raise (Exc RuntimeError "maximum recursion depth exceeded")
  | _ => lift (attribute_error "get")
  end.

(** [MongoUserManager._get_user_document] (lines 59-68). *)
Definition _get_user_document : M pyobj :=
  let name := MONGOENGINE_USER_DOCUMENT in
  try_except
    (dot <- lift (from_option Return (Raise (Exc ValueError "substring not found"))
                    (PyStr.rindex name ".")) ;;
     module <- lift (import_module (PyStr.take dot name)) ;;
     lift (getattr module (PyStr.drop (dot + 1) name)))
    (fun e =>
       if decide (exc_type e = ImportError)
       then raise (Exc ImproperlyConfigured (import_error_message name))
       else raise e).

(** [MongoUserManager.contribute_to_class] (lines 45-57).  In an assignment
    [a.x = b.y] Python evaluates [b.y] before [a]. *)
Definition contribute_to_class (model : string) (name : string) : M unit :=
  UserManager_contribute_to_class model name ;;
  m <- gets self_model ;;
  modify (set_self_dj_model m) ;;
  doc <- _get_user_document ;;
  modify (set_self_model doc) ;;

  doc <- gets self_model ;;
  u <- get_USERNAME_FIELD doc ;;
  dj <- get_self_dj_model ;;
  set_USERNAME_FIELD dj u ;;
  let username := models_CharField (ugettext_lazy "username") 30 true in
  dj <- get_self_dj_model ;;
  dj' <- get_self_dj_model ;;
  key <- get_USERNAME_FIELD dj' ;;
  Field_contribute_to_class username dj key ;;

  doc <- gets self_model ;;
  rf <- get_REQUIRED_FIELDS doc ;;
  dj <- get_self_dj_model ;;
  set_REQUIRED_FIELDS dj rf ;;
  dj <- get_self_dj_model ;;
  names <- get_REQUIRED_FIELDS dj ;;
  for_each names (fun name =>
    let field := models_CharField (ugettext_lazy name) 30 false in
    dj <- get_self_dj_model ;;
    Field_contribute_to_class field dj name).

(** [MongoUserManager.get_query_set] (lines 84-85). *)
Definition get_query_set : M pyobj :=
  m <- gets self_model ;;
  get_objects m.

(** [MongoUserManager.get_empty_query_set] (lines 81-82). *)
Definition get_empty_query_set : M pyobj :=
  m <- gets self_model ;;
  o <- get_objects m ;;
  call_none o.

(** [MongoUserManager.get] (lines 70-75).  The expression of the [except]
    clause is evaluated only once the body has raised. *)
Definition get (c : criteria) : M pyobj :=
  try_except
    (qs <- get_query_set ;;
     call_get qs c)
    (fun e =>
       m <- gets self_model ;;
       cls <- lift (get_DoesNotExist m) ;;
       if decide (exc_type e = cls)
       then
         (* ModelBackend expects this exception *)
         dj <- get_self_dj_model ;;
         dcls <- lift (get_DoesNotExist dj) ;;
         raise (Exc dcls "")
       else raise e).

(** The property [MongoUserManager.db] (lines 77-79). *)
Definition db : M pyobj :=
  raise (Exc NotImplementedError "").

End Bridge.

(** ** A concrete deployment

    The default user document of MongoEngine, an importer that knows one
    module, and a document layer that looks documents up by keyword
    equality.  The examples and the instances of the theorems below run on
    it. *)

Module Deployment.

Definition User : Document :=
  {| doc_name := "mongoengine.django.auth.User";
     USERNAME_FIELD := Some "username";
     REQUIRED_FIELDS := Some ["email"] |}.

(** A document class that lists its primary field among the required ones. *)
Definition Account : Document :=
  {| doc_name := "accounts.documents.Account";
     USERNAME_FIELD := Some "login";
     REQUIRED_FIELDS := Some ["email"; "login"] |}.

Definition import_module (name : string) : result (gmap string pyobj) :=
  if decide (name = "mongoengine.django.auth")
  then Return {[ "User" := PyDocument User ]}
  else if decide (name = "accounts.documents")
  then Return {[ "Account" := PyDocument Account ]}
  else Raise (Exc ImportError ("No module named " ++ name)).

Definition matches (kw : list (string * string)) (doc : gmap string string) : bool :=
  forallb (fun '(k, v) => bool_decide (doc !! k = Some v)) kw.

Definition document_get (q : QuerySet) (c : criteria)
    (store : gmap string (list (gmap string string))) : result pyobj :=
  let owner := DocumentClass (doc_name (qs_document q)) in
  let found :=
    if qs_is_none q then []
    else List.filter (matches (c_kwargs c))
           (default [] (store !! doc_name (qs_document q))) in
  match found with
  | [] => Raise (Exc (DoesNotExist owner) "matching query does not exist")
  | [doc] => Return (PyInstance doc)
  | _ => Raise (Exc (OtherError "MultipleObjectsReturned") "")
  end.

Definition unset : gmap string string := ∅.

Definition custom : gmap string string :=
  {[ "MONGOENGINE_USER_DOCUMENT" := "accounts.documents.Account" ]}.

(** Three misconfigurations: no separator, a module that does not exist,
    a module that exists without the named class. *)
Definition malformed : gmap string string :=
  {[ "MONGOENGINE_USER_DOCUMENT" := "User" ]}.

Definition unreachable : gmap string string :=
  {[ "MONGOENGINE_USER_DOCUMENT" := "missing.documents.User" ]}.

Definition misnamed : gmap string string :=
  {[ "MONGOENGINE_USER_DOCUMENT" := "accounts.documents.Profile" ]}.

Definition alice : gmap string string :=
  {[ "username" := "alice"; "email" := "alice@example.org" ]}.

(** Before the class [MongoUser] is built: a fresh manager, one stored
    user, one row in an unrelated relational table. *)
Definition initial : World :=
  {| self_model := PyNone;
     self_dj_model := None;
     classes := ∅;
     tables := {[ "auth_group" := [ {[ "name" := "staff" ]} ] ]};
     collections := {[ "mongoengine.django.auth.User" := [alice] ]} |}.

Definition by_username (u : string) : criteria :=
  {| c_args := []; c_kwargs := [("username", u)] |}.

(** After the class [MongoUser] is built with the manager as [objects]. *)
Definition bridged : World :=
  snd (contribute_to_class unset import_module "MongoUser" "objects" initial).

(** The same manager code attached to another relational class. *)
Definition bridged_staff : World :=
  snd (contribute_to_class unset import_module "StaffUser" "objects" initial).

End Deployment.

(** ** Vocabulary of the statements *)

(** The manager is bound: [self.model] is the document class [d] and
    [self.dj_model] is the relational class [r]. *)
Definition bound (w : World) (d : Document) (r : string) : Prop :=
  self_model w = PyDocument d /\ self_dj_model w = Some (PyModelClass r).

(** An operation of a bound manager that works on the document side only:
    its answer is the same in any two worlds that agree on the document
    class and the stored documents, whatever the relational class, its
    attributes and the tables are, and it leaves the world as it found it. *)
Definition document_side_only {A} (op : M A) : Prop :=
  forall d r1 r2 w1 w2,
    bound w1 d r1 -> bound w2 d r2 -> collections w1 = collections w2 ->
    fst (op w1) = fst (op w2) /\ snd (op w1) = w1.

(** The field contributed under the primary field name. *)
Definition username_field (p : string) : CharField :=
  {| verbose_name := ugettext_lazy "username"; max_length := 30;
     unique := true; field_name := Some p |}.

(** The field contributed for a required field name. *)
Definition required_field (r : string) : CharField :=
  {| verbose_name := ugettext_lazy r; max_length := 30;
     unique := false; field_name := Some r |}.

(** The field contributed last under a name. *)
Fixpoint last_registered (name : string) (fields : list CharField) : option CharField :=
  match fields with
  | [] => None
  | f :: fs =>
      match last_registered name fs with
      | Some g => Some g
      | None => if decide (field_name f = Some name) then Some f else None
      end
  end.

(** The faults of schema resolution that no handler is written for, with the
    exception class each one surfaces as. *)
Inductive unhandled_fault (import_module : string -> result (gmap string pyobj))
    (name : string) : exc_class -> Prop :=
| malformed_name :
    PyStr.occurs "." name = false ->
    unhandled_fault import_module name ValueError
| missing_attribute (dot : nat) (module : gmap string pyobj) :
    PyStr.rindex name "." = Some dot ->
    import_module (PyStr.take dot name) = Return module ->
    module !! PyStr.drop (dot + 1) name = None ->
    unhandled_fault import_module name AttributeError.

(** ** Vocabulary of the further properties *)

(** A property of worlds that a computation keeps: it holds of the world the
    computation ends in whenever it holds of the world it starts in, whether
    the computation returns or raises. *)
Definition keeps {A} (I : World -> Prop) (m : M A) : Prop :=
  forall w, I w -> I (snd (m w)).

(** What stays fixed, relative to a world [w0], while the manager is being
    contributed to the class [model]: [self.dj_model] is that class, the
    tables, the stored documents and every other class are those of [w0],
    and the fields of [model] extend those it had in [w0]. *)
Definition contributing (model : string) (w0 w : World) : Prop :=
  self_dj_model w = Some (PyModelClass model) /\
  tables w = tables w0 /\
  collections w = collections w0 /\
  (forall r, r <> model -> classes w !! r = classes w0 !! r) /\
  exists more, cls_fields (cls_of w model) = (cls_fields (cls_of w0 model) ++ more)%list.

(** The manager holds the object [obj] as [self.model] and the relational
    class [model] as [self.dj_model]. *)
Definition manager_holds (obj : pyobj) (model : string) (w : World) : Prop :=
  self_model w = obj /\ self_dj_model w = Some (PyModelClass model).

(** ** A deployment with faulty configurations *)

Module Faulty.

(** A document class without [USERNAME_FIELD]. *)
Definition Nameless : Document :=
  {| doc_name := "partial.documents.Nameless";
     USERNAME_FIELD := None;
     REQUIRED_FIELDS := Some ["email"] |}.

(** A document class with [USERNAME_FIELD] and without [REQUIRED_FIELDS]. *)
Definition Halfway : Document :=
  {| doc_name := "partial.documents.Halfway";
     USERNAME_FIELD := Some "login";
     REQUIRED_FIELDS := None |}.

(** One module imports, one fails while it is executed, the others do not
    exist. *)
Definition import_module (name : string) : result (gmap string pyobj) :=
  if decide (name = "partial.documents")
  then Return {[ "Nameless" := PyDocument Nameless; "Halfway" := PyDocument Halfway ]}
  else if decide (name = "broken.documents")
  then Raise (Exc (OtherError "SyntaxError") "invalid syntax")
  else Raise (Exc ImportError ("No module named " ++ name)).

Definition nameless : gmap string string :=
  {[ "MONGOENGINE_USER_DOCUMENT" := "partial.documents.Nameless" ]}.

Definition halfway : gmap string string :=
  {[ "MONGOENGINE_USER_DOCUMENT" := "partial.documents.Halfway" ]}.

Definition broken : gmap string string :=
  {[ "MONGOENGINE_USER_DOCUMENT" := "broken.documents.User" ]}.

(** The bridged deployment with the same user stored twice. *)
Definition crowded : World :=
  {| self_model := self_model Deployment.bridged;
     self_dj_model := self_dj_model Deployment.bridged;
     classes := classes Deployment.bridged;
     tables := tables Deployment.bridged;
     collections :=
       {[ "mongoengine.django.auth.User" := [Deployment.alice; Deployment.alice] ]} |}.

End Faulty.

(** ** Strings *)

Lemma rfind_from_None (c : ascii) (s : string) (i : nat) :
  PyStr.rfind_from c s i = None <-> PyStr.occurs c s = false.
Proof.
  revert i. induction s as [|a s IH]; intros i; simpl; [tauto|].
  destruct (PyStr.rfind_from c s (S i)) eqn:E.
  - split; [discriminate|]. intros H.
    apply orb_false_iff in H as [_ H]. apply (IH (S i)) in H. congruence.
  - apply IH in E. rewrite E, orb_false_r.
    destruct (Ascii.eqb a c); split; congruence.
Qed.

Lemma rfind_from_Some (c : ascii) (s : string) (i j : nat) :
  PyStr.rfind_from c s i = Some j ->
  exists k, j = i + k /\
    s = PyStr.take k s ++ String c (PyStr.drop (S k) s) /\
    PyStr.occurs c (PyStr.drop (S k) s) = false.
Proof.
  revert i j. induction s as [|a s IH]; intros i j; simpl; [discriminate|].
  destruct (PyStr.rfind_from c s (S i)) as [j'|] eqn:E.
  - intros [= <-]. destruct (IH _ _ E) as (k & -> & Hs & Ho).
    exists (S k). split; [lia|]. split; [|exact Ho].
    change (String a s = String a (PyStr.take k s ++ String c (PyStr.drop (S k) s))).
    f_equal. exact Hs.
  - destruct (Ascii.eqb a c) eqn:Eac; [|discriminate].
    intros [= <-]. apply Ascii.eqb_eq in Eac as ->.
    exists 0. split; [lia|]. apply rfind_from_None in E.
    destruct s; simpl; auto.
Qed.

(** [rindex] answers exactly when the separator occurs. *)
Lemma rindex_is_Some (s : string) (c : ascii) :
  PyStr.occurs c s = true -> exists dot, PyStr.rindex s c = Some dot.
Proof.
  intros H. unfold PyStr.rindex.
  destruct (PyStr.rfind_from c s 0) as [dot|] eqn:E; [eauto|].
  apply rfind_from_None in E. congruence.
Qed.

(** [rindex] cuts the string at the last occurrence of the separator. *)
Lemma rindex_split (s : string) (c : ascii) (dot : nat) :
  PyStr.rindex s c = Some dot ->
  s = PyStr.take dot s ++ String c (PyStr.drop (dot + 1) s) /\
  PyStr.occurs c (PyStr.drop (dot + 1) s) = false.
Proof.
  intros H. apply rfind_from_Some in H as (k & -> & Hs & Ho).
  simpl. rewrite Nat.add_1_r. auto.
Qed.

(** ** Schema resolution *)

(** What [_get_user_document] computes, case by case. *)
Lemma _get_user_document_eq settings import_module (w : World) :
  _get_user_document settings import_module w =
  (let name := MONGOENGINE_USER_DOCUMENT settings in
   match PyStr.rindex name "." with
   | None => Raise (Exc ValueError "substring not found")
   | Some dot =>
       match import_module (PyStr.take dot name) with
       | Raise e =>
           if decide (exc_type e = ImportError)
           then Raise (Exc ImproperlyConfigured (import_error_message name))
           else Raise e
       | Return module => getattr module (PyStr.drop (dot + 1) name)
       end
   end, w).
Proof.
  unfold _get_user_document, try_except, bind, lift, raise. simpl.
  destruct (PyStr.rindex _ _) as [dot|]; simpl; [|reflexivity].
  destruct (import_module _) as [module|e]; simpl.
  - unfold getattr, attribute_error.
    destruct (module !! _); simpl; reflexivity.
  - destruct (decide _); reflexivity.
Qed.

(** Resolution neither reads nor changes the world. *)
Lemma _get_user_document_pure settings import_module (w w' : World) :
  fst (_get_user_document settings import_module w) =
  fst (_get_user_document settings import_module w') /\
  snd (_get_user_document settings import_module w) = w.
Proof. rewrite !_get_user_document_eq. split; reflexivity. Qed.

Lemma import_error_message_contains (name : string) :
  PyStr.contains (import_error_message name) name.
Proof.
  exists "Error importing ", ", please check settings.MONGOENGINE_USER_DOCUMENT".
  reflexivity.
Qed.

Lemma getattr_raises (module : gmap string pyobj) (attr : string) (e : exception) :
  getattr module attr = Raise e -> exc_type e = AttributeError.
Proof.
  unfold getattr, attribute_error. destruct (module !! attr); [discriminate|].
  intros [= <-]. reflexivity.
Qed.

(** C3: when the module segment of the configured name cannot be imported
    (the import raises [ImportError]), schema resolution raises
    [ImproperlyConfigured]; the message contains the configured name, and the
    exception class differs from the one any failed attribute lookup on a
    module raises. *)
Theorem unimportable_module_raises_ImproperlyConfigured
    settings import_module (w : World) (name : string) (dot : nat) (e : exception) :
  MONGOENGINE_USER_DOCUMENT settings = name ->
  PyStr.rindex name "." = Some dot ->
  import_module (PyStr.take dot name) = Raise e ->
  exc_type e = ImportError ->
  exists err,
    _get_user_document settings import_module w = (Raise err, w) /\
    exc_type err = ImproperlyConfigured /\
    PyStr.contains (exc_msg err) name /\
    (forall module attr e', getattr module attr = Raise e' ->
       exc_type err <> exc_type e').
Proof.
  intros Hname Hdot Himp He.
  exists (Exc ImproperlyConfigured (import_error_message name)).
  rewrite _get_user_document_eq. cbv zeta. rewrite Hname, Hdot, Himp.
  destruct (decide (exc_type e = ImportError)) as [_|Hne]; [|contradiction].
  split; [reflexivity|]. split; [reflexivity|].
  split; [apply import_error_message_contains|].
  intros module attr e' Hget. apply getattr_raises in Hget.
  rewrite Hget. discriminate.
Qed.

Lemma unimportable_module_raises_ImproperlyConfigured_witness :
  exists err,
    _get_user_document Deployment.unreachable Deployment.import_module
      Deployment.initial = (Raise err, Deployment.initial) /\
    exc_type err = ImproperlyConfigured /\
    PyStr.contains (exc_msg err) "missing.documents.User" /\
    (forall module attr e', getattr module attr = Raise e' ->
       exc_type err <> exc_type e').
Proof.
  apply (unimportable_module_raises_ImproperlyConfigured
           Deployment.unreachable Deployment.import_module Deployment.initial
           "missing.documents.User" 17
           (Exc ImportError "No module named missing.documents"));
    vm_compute; reflexivity.
Defined.

(** C5: a configured name with at least one separator is cut at its last
    separator into a module path and a schema name (the schema name holds no
    separator), the module of that path is imported, and the attribute of
    that module under the schema name is what resolution returns. *)
Theorem resolution_splits_at_last_separator
    settings import_module (w : World) (name : string) :
  MONGOENGINE_USER_DOCUMENT settings = name ->
  PyStr.occurs "." name = true ->
  exists prefix suffix,
    name = prefix ++ "." ++ suffix /\
    PyStr.occurs "." suffix = false /\
    (forall module, import_module prefix = Return module ->
       _get_user_document settings import_module w = (getattr module suffix, w)) /\
    (forall module v, import_module prefix = Return module ->
       module !! suffix = Some v ->
       _get_user_document settings import_module w = (Return v, w)).
Proof.
  intros Hname Hocc.
  destruct (rindex_is_Some _ _ Hocc) as [dot Hdot].
  destruct (rindex_split _ _ _ Hdot) as [Hsplit Hlast].
  exists (PyStr.take dot name), (PyStr.drop (dot + 1) name).
  split; [exact Hsplit|]. split; [exact Hlast|].
  assert (Hmod : forall module,
            import_module (PyStr.take dot name) = Return module ->
            _get_user_document settings import_module w =
              (getattr module (PyStr.drop (dot + 1) name), w)).
  { intros module Himp. rewrite _get_user_document_eq. cbv zeta.
    rewrite Hname, Hdot, Himp. reflexivity. }
  split; [exact Hmod|].
  intros module v Himp Hv. rewrite (Hmod _ Himp).
  unfold getattr. rewrite Hv. reflexivity.
Qed.

Lemma resolution_splits_at_last_separator_witness :
  exists prefix suffix,
    "mongoengine.django.auth.User" = prefix ++ "." ++ suffix /\
    PyStr.occurs "." suffix = false /\
    (forall module, Deployment.import_module prefix = Return module ->
       _get_user_document Deployment.unset Deployment.import_module
         Deployment.initial = (getattr module suffix, Deployment.initial)) /\
    (forall module v, Deployment.import_module prefix = Return module ->
       module !! suffix = Some v ->
       _get_user_document Deployment.unset Deployment.import_module
         Deployment.initial = (Return v, Deployment.initial)).
Proof.
  apply (resolution_splits_at_last_separator
           Deployment.unset Deployment.import_module Deployment.initial
           "mongoengine.django.auth.User");
    vm_compute; reflexivity.
Defined.

(** On the default deployment the split is the expected one. *)
Example resolution_of_default :
  _get_user_document Deployment.unset Deployment.import_module Deployment.initial
  = (Return (PyDocument Deployment.User), Deployment.initial).
Proof. vm_compute. reflexivity. Qed.

(** C6: a configured name without separator, or one whose module loads but
    lacks the named attribute, does not end in [ImproperlyConfigured]: the
    [ValueError] of the separator search, respectively the [AttributeError]
    of the lookup, is what resolution raises. *)
Theorem other_faults_propagate_unhandled
    settings import_module (w : World) (name : string) (cls : exc_class) :
  MONGOENGINE_USER_DOCUMENT settings = name ->
  unhandled_fault import_module name cls ->
  exists err,
    _get_user_document settings import_module w = (Raise err, w) /\
    exc_type err = cls /\
    exc_type err <> ImproperlyConfigured.
Proof.
  intros Hname Hfault. rewrite _get_user_document_eq. cbv zeta. rewrite Hname.
  destruct Hfault as [Hocc | dot module Hdot Himp Hattr].
  - apply (rfind_from_None _ _ 0) in Hocc. unfold PyStr.rindex. rewrite Hocc.
    eexists. split; [reflexivity|]. split; [reflexivity|discriminate].
  - rewrite Hdot, Himp. unfold getattr. rewrite Hattr.
    eexists. split; [reflexivity|]. split; [reflexivity|discriminate].
Qed.

Lemma other_faults_propagate_unhandled_witness :
  (exists err,
     _get_user_document Deployment.malformed Deployment.import_module
       Deployment.initial = (Raise err, Deployment.initial) /\
     exc_type err = ValueError /\ exc_type err <> ImproperlyConfigured) /\
  (exists err,
     _get_user_document Deployment.misnamed Deployment.import_module
       Deployment.initial = (Raise err, Deployment.initial) /\
     exc_type err = AttributeError /\ exc_type err <> ImproperlyConfigured).
Proof.
  split.
  - apply (other_faults_propagate_unhandled
             Deployment.malformed Deployment.import_module Deployment.initial
             "User" ValueError); [vm_compute; reflexivity|].
    apply malformed_name. vm_compute. reflexivity.
  - apply (other_faults_propagate_unhandled
             Deployment.misnamed Deployment.import_module Deployment.initial
             "accounts.documents.Profile" AttributeError);
      [vm_compute; reflexivity|].
    apply (missing_attribute _ _ 18 {[ "Account" := PyDocument Deployment.Account ]});
      vm_compute; reflexivity.
Defined.

(** ** Query operations of a bound manager *)

Lemma get_query_set_bound (w : World) (d : Document) (r : string) :
  bound w d r ->
  get_query_set w = (Return (PyQuerySet (Document_objects d)), w).
Proof.
  intros [Hm _]. unfold get_query_set, bind, gets, get_objects.
  rewrite Hm. reflexivity.
Qed.

Lemma get_empty_query_set_bound (w : World) (d : Document) (r : string) :
  bound w d r ->
  get_empty_query_set w =
    (Return (PyQuerySet (QuerySet_none (Document_objects d))), w).
Proof.
  intros [Hm _]. unfold get_empty_query_set, bind, gets, get_objects, call_none, ret.
  rewrite Hm. reflexivity.
Qed.

(** What [get] computes once the manager is bound. *)
Lemma get_bound document_get (c : criteria) (w : World) (d : Document) (r : string) :
  bound w d r ->
  get document_get c w =
    (match document_get (Document_objects d) c (collections w) with
     | Return v => Return v
     | Raise e =>
         if decide (exc_type e = DoesNotExist (DocumentClass (doc_name d)))
         then Raise (Exc (DoesNotExist (ModelClass r)) "")
         else Raise e
     end, w).
Proof.
  intros [Hm Hdj].
  unfold get, try_except, get_query_set, bind, gets, get_objects, call_get.
  cbv beta. rewrite Hm. cbv beta iota.
  destruct (document_get _ _ _) as [v|e]; [reflexivity|].
  unfold lift, get_DoesNotExist. cbv beta iota. rewrite Hm. cbv beta iota.
  destruct (decide _); [|reflexivity].
  unfold get_self_dj_model, raise. cbv beta iota. rewrite Hdj. reflexivity.
Qed.

(** C1: whatever the criteria, when the document layer's [get] raises the
    document class's [DoesNotExist], the manager's [get] raises the
    [DoesNotExist] of the original relational model, which is another
    exception class than the document layer's. *)
Theorem get_raises_relational_DoesNotExist
    document_get (c : criteria) (w : World) (d : Document) (r : string)
    (e : exception) :
  bound w d r ->
  document_get (Document_objects d) c (collections w) = Raise e ->
  exc_type e = DoesNotExist (DocumentClass (doc_name d)) ->
  exists err,
    get document_get c w = (Raise err, w) /\
    get_DoesNotExist (PyModelClass r) = Return (exc_type err) /\
    get_DoesNotExist (PyDocument d) <> Return (exc_type err).
Proof.
  intros Hb Hget He. exists (Exc (DoesNotExist (ModelClass r)) "").
  rewrite (get_bound _ _ _ _ _ Hb), Hget.
  destruct (decide _) as [_|Hne]; [|contradiction].
  split; [reflexivity|]. split; [reflexivity|]. discriminate.
Qed.

(** C7: reading the [db] property raises [NotImplementedError] in every
    state of the manager and never yields a value. *)
Theorem db_always_raises_NotImplementedError (w : World) :
  (exists err, db w = (Raise err, w) /\ exc_type err = NotImplementedError) /\
  (forall v, fst (db w) <> Return v).
Proof.
  split.
  - eexists. split; reflexivity.
  - intros v. discriminate.
Qed.

(** C8: on a bound manager [get_empty_query_set] returns the result set that
    [none()] builds from the document class's own default query set, and its
    size is zero whatever documents are stored. *)
Theorem get_empty_query_set_is_empty (w : World) (d : Document) (r : string) :
  bound w d r ->
  exists q,
    get_empty_query_set w = (Return (PyQuerySet q), w) /\
    q = QuerySet_none (Document_objects d) /\
    (forall store, QuerySet_count q store = 0).
Proof.
  intros Hb. exists (QuerySet_none (Document_objects d)).
  split; [apply (get_empty_query_set_bound _ _ _ Hb)|].
  split; [reflexivity|]. intros store. reflexivity.
Qed.

(** ** Class contribution *)

Lemma bind_Return {A B} (m : M A) (k : A -> M B) (w w' : World) (a : A) :
  m w = (Return a, w') -> bind m k w = k a w'.
Proof. intros H. unfold bind. rewrite H. reflexivity. Qed.

Lemma bind_Raise {A B} (m : M A) (k : A -> M B) (w w' : World) (e : exception) :
  m w = (Raise e, w') -> bind m k w = (Raise e, w').
Proof. intros H. unfold bind. rewrite H. reflexivity. Qed.

Lemma get_self_dj_model_Some (w : World) (o : pyobj) :
  self_dj_model w = Some o -> get_self_dj_model w = (Return o, w).
Proof. intros H. unfold get_self_dj_model. rewrite H. reflexivity. Qed.

(** Run the next statement of a method body, given how it ends. *)
Ltac run_with tac := erewrite bind_Return; [|tac].
Ltac run := run_with ltac:(reflexivity).
Ltac run_dj := run_with ltac:(apply get_self_dj_model_Some; reflexivity).

Lemma set_classes_id (w : World) : set_classes (classes w) w = w.
Proof. destruct w; reflexivity. Qed.

Lemma ModelCls_eta (c : ModelCls) :
  {| cls_USERNAME_FIELD := cls_USERNAME_FIELD c;
     cls_REQUIRED_FIELDS := cls_REQUIRED_FIELDS c;
     cls_fields := cls_fields c; cls_managers := cls_managers c |} = c.
Proof. destruct c; reflexivity. Qed.

Lemma update_cls_Some (r : string) (f : ModelCls -> ModelCls) (w : World) (c : ModelCls) :
  classes w !! r = Some c ->
  update_cls r f w = set_classes (<[r := f c]> (classes w)) w.
Proof. intros H. unfold update_cls, cls_of. rewrite H. reflexivity. Qed.

(** One turn of the loop of [contribute_to_class]. *)
Lemma required_field_step (model name : string) (w : World) (c : ModelCls) :
  self_dj_model w = Some (PyModelClass model) ->
  classes w !! model = Some c ->
  (dj <- get_self_dj_model ;;
   Field_contribute_to_class
     (models_CharField (ugettext_lazy name) 30 false) dj name) w
  = (Return tt,
     set_classes
       (<[model := {| cls_USERNAME_FIELD := cls_USERNAME_FIELD c;
                      cls_REQUIRED_FIELDS := cls_REQUIRED_FIELDS c;
                      cls_fields := cls_fields c ++ [required_field name];
                      cls_managers := cls_managers c |}]> (classes w)) w).
Proof.
  intros Hdj Hc.
  rewrite (bind_Return _ _ w w (PyModelClass model));
    [|unfold get_self_dj_model; rewrite Hdj; reflexivity].
  unfold Field_contribute_to_class, modify.
  rewrite (update_cls_Some _ _ _ _ Hc). reflexivity.
Qed.

(** The loop appends one field per required name, in order, to the class
    [self.dj_model] refers to. *)
Lemma required_fields_loop (model : string) (names : list string) :
  forall (w : World) (c : ModelCls),
    self_dj_model w = Some (PyModelClass model) ->
    classes w !! model = Some c ->
    for_each names (fun name =>
      let field := models_CharField (ugettext_lazy name) 30 false in
      dj <- get_self_dj_model ;;
      Field_contribute_to_class field dj name) w
    = (Return tt,
       set_classes
         (<[model := {| cls_USERNAME_FIELD := cls_USERNAME_FIELD c;
                        cls_REQUIRED_FIELDS := cls_REQUIRED_FIELDS c;
                        cls_fields := cls_fields c ++ map required_field names;
                        cls_managers := cls_managers c |}]> (classes w)) w).
Proof.
  induction names as [|x names IH]; intros w c Hdj Hc.
  - simpl. unfold ret. rewrite app_nil_r, ModelCls_eta.
    rewrite (insert_id _ _ _ Hc), set_classes_id. reflexivity.
  - cbn [for_each]. cbv zeta.
    rewrite (bind_Return _ _ _ _ _ (required_field_step model x w c Hdj Hc)).
    cbv zeta in IH. erewrite IH; [| exact Hdj | apply lookup_insert_eq ].
    unfold set_classes. cbn [classes self_model self_dj_model tables collections
      cls_USERNAME_FIELD cls_REQUIRED_FIELDS cls_fields cls_managers map].
    rewrite insert_insert_eq, <- app_assoc. reflexivity.
Qed.

Lemma _get_user_document_at settings import_module (w w' : World) (r : result pyobj) :
  fst (_get_user_document settings import_module w) = r ->
  _get_user_document settings import_module w' = (r, w').
Proof.
  intros <-. rewrite !_get_user_document_eq. reflexivity.
Qed.

Lemma get_USERNAME_FIELD_cls (w : World) (r : string) (c : ModelCls) (p : string) :
  classes w !! r = Some c -> cls_USERNAME_FIELD c = Some p ->
  get_USERNAME_FIELD (PyModelClass r) w = (Return p, w).
Proof.
  intros Hc Hp. unfold get_USERNAME_FIELD, cls_of. rewrite Hc. simpl.
  rewrite Hp. reflexivity.
Qed.

Lemma get_REQUIRED_FIELDS_cls (w : World) (r : string) (c : ModelCls) (rs : list string) :
  classes w !! r = Some c -> cls_REQUIRED_FIELDS c = Some rs ->
  get_REQUIRED_FIELDS (PyModelClass r) w = (Return rs, w).
Proof.
  intros Hc Hp. unfold get_REQUIRED_FIELDS, cls_of. rewrite Hc. simpl.
  rewrite Hp. reflexivity.
Qed.

Lemma get_USERNAME_FIELD_doc (w : World) (o : pyobj) (d : Document) (p : string) :
  o = PyDocument d -> USERNAME_FIELD d = Some p ->
  get_USERNAME_FIELD o w = (Return p, w).
Proof. intros -> Hp. unfold get_USERNAME_FIELD. rewrite Hp. reflexivity. Qed.

Lemma get_REQUIRED_FIELDS_doc (w : World) (o : pyobj) (d : Document) (rs : list string) :
  o = PyDocument d -> REQUIRED_FIELDS d = Some rs ->
  get_REQUIRED_FIELDS o w = (Return rs, w).
Proof. intros -> Hp. unfold get_REQUIRED_FIELDS. rewrite Hp. reflexivity. Qed.

(** The world [contribute_to_class] leaves behind when the configured name
    resolves to a document class that declares both attributes. *)
Lemma contribute_to_class_document
    settings import_module (model name : string) (w : World)
    (d : Document) (p : string) (rs : list string) :
  fst (_get_user_document settings import_module w) = Return (PyDocument d) ->
  USERNAME_FIELD d = Some p ->
  REQUIRED_FIELDS d = Some rs ->
  contribute_to_class settings import_module model name w =
    (Return tt,
     {| self_model := PyDocument d;
        self_dj_model := Some (PyModelClass model);
        classes :=
          <[model := {| cls_USERNAME_FIELD := Some p;
                        cls_REQUIRED_FIELDS := Some rs;
                        cls_fields := cls_fields (cls_of w model) ++
                                      username_field p :: map required_field rs;
                        cls_managers := name :: cls_managers (cls_of w model) |}]>
            (classes w);
        tables := tables w;
        collections := collections w |}).
Proof.
  intros Hdoc Hp Hrs. unfold contribute_to_class.
  run. run. run.
  run_with ltac:(apply (_get_user_document_at _ _ w _ _ Hdoc)).
  run. run.
  run_with ltac:(apply (get_USERNAME_FIELD_doc _ _ d p); [reflexivity|exact Hp]).
  run_dj. run. cbv zeta. run_dj. run_dj.
  run_with ltac:(eapply get_USERNAME_FIELD_cls; [apply lookup_insert_eq|reflexivity]).
  run. run.
  run_with ltac:(apply (get_REQUIRED_FIELDS_doc _ _ d rs); [reflexivity|exact Hrs]).
  run_dj. run. run_dj.
  run_with ltac:(eapply get_REQUIRED_FIELDS_cls; [apply lookup_insert_eq|reflexivity]).
  erewrite required_fields_loop; [|reflexivity|apply lookup_insert_eq].
  unfold update_cls, set_classes, set_self_model, set_self_dj_model, cls_of.
  cbn [classes self_model self_dj_model tables collections].
  rewrite !lookup_insert_eq. cbn [default from_option id].
  rewrite !insert_insert_eq.
  cbn [cls_USERNAME_FIELD cls_REQUIRED_FIELDS cls_fields cls_managers].
  rewrite <- app_assoc. reflexivity.
Qed.

(** When resolution raises, class contribution stops with the same
    exception; the manager is left attached to the relational class, no
    field is contributed. *)
Lemma contribute_to_class_resolution_fails
    settings import_module (model name : string) (w : World) (e : exception) :
  fst (_get_user_document settings import_module w) = Raise e ->
  exists w',
    contribute_to_class settings import_module model name w = (Raise e, w') /\
    self_model w' = PyModelClass model /\
    self_dj_model w' = Some (PyModelClass model) /\
    cls_fields (cls_of w' model) = cls_fields (cls_of w model).
Proof.
  intros Hres. unfold contribute_to_class.
  run. run. run.
  erewrite bind_Raise; [|apply (_get_user_document_at _ _ w _ _ Hres)].
  eexists. split; [reflexivity|].
  split; [reflexivity|]. split; [reflexivity|].
  unfold cls_of at 1. cbn [classes set_self_dj_model set_self_model update_cls set_classes].
  rewrite lookup_insert_eq. reflexivity.
Qed.

(** C2: when the configured name resolves to a document class with primary
    field [p] and required fields [rs], [contribute_to_class] on a relational
    model leaves that model with [USERNAME_FIELD] equal to [p] and
    [REQUIRED_FIELDS] equal to [rs], and appends to its fields a unique text
    field of maximal length 30 under the name [p] followed, for every name of
    [rs] in order, by a text field of maximal length 30 under that name whose
    label is the name. *)
Theorem contribute_to_class_projects_schema
    settings import_module (model name : string) (w : World)
    (d : Document) (p : string) (rs : list string) :
  fst (_get_user_document settings import_module w) = Return (PyDocument d) ->
  USERNAME_FIELD d = Some p ->
  REQUIRED_FIELDS d = Some rs ->
  exists w',
    contribute_to_class settings import_module model name w = (Return tt, w') /\
    bound w' d model /\
    cls_USERNAME_FIELD (cls_of w' model) = Some p /\
    cls_REQUIRED_FIELDS (cls_of w' model) = Some rs /\
    cls_fields (cls_of w' model) =
      (cls_fields (cls_of w model) ++
       {| verbose_name := ugettext_lazy "username"; max_length := 30;
          unique := true; field_name := Some p |} ::
       map (fun r => {| verbose_name := ugettext_lazy r; max_length := 30;
                        unique := false; field_name := Some r |}) rs)%list /\
    (forall r, In r rs ->
       exists f, In f (cls_fields (cls_of w' model)) /\
         field_name f = Some r /\ max_length f = 30 /\
         verbose_name f = ugettext_lazy r).
Proof.
  intros Hdoc Hp Hrs.
  pose proof (contribute_to_class_document _ _ model name _ d p rs Hdoc Hp Hrs)
    as Hrun.
  set (c0 := cls_of w model) in *. clearbody c0.
  eexists. split; [exact Hrun|].
  unfold cls_of. cbn [classes]. rewrite lookup_insert_eq.
  cbn [default from_option id cls_USERNAME_FIELD cls_REQUIRED_FIELDS cls_fields].
  split; [split; reflexivity|].
  split; [reflexivity|]. split; [reflexivity|]. split; [reflexivity|].
  intros r Hr. exists (required_field r).
  split; [|repeat split].
  apply in_or_app. right. right. apply in_map_iff. eauto.
Qed.

Lemma contribute_to_class_projects_schema_witness :
  exists w',
    contribute_to_class Deployment.unset Deployment.import_module
      "MongoUser" "objects" Deployment.initial = (Return tt, w') /\
    bound w' Deployment.User "MongoUser" /\
    cls_USERNAME_FIELD (cls_of w' "MongoUser") = Some "username" /\
    cls_REQUIRED_FIELDS (cls_of w' "MongoUser") = Some ["email"] /\
    cls_fields (cls_of w' "MongoUser") =
      (cls_fields (cls_of Deployment.initial "MongoUser") ++
       {| verbose_name := ugettext_lazy "username"; max_length := 30;
          unique := true; field_name := Some "username" |} ::
       map (fun r => {| verbose_name := ugettext_lazy r; max_length := 30;
                        unique := false; field_name := Some r |}) ["email"])%list /\
    (forall r, In r ["email"] ->
       exists f, In f (cls_fields (cls_of w' "MongoUser")) /\
         field_name f = Some r /\ max_length f = 30 /\
         verbose_name f = ugettext_lazy r).
Proof.
  apply (contribute_to_class_projects_schema
           Deployment.unset Deployment.import_module "MongoUser" "objects"
           Deployment.initial Deployment.User "username" ["email"]);
    vm_compute; reflexivity.
Defined.

(** C9: without the setting, the name is the built-in default
    ['mongoengine.django.auth.User'], and class definition goes through with
    the primary and required fields of the class found under that name. *)
Theorem unset_setting_uses_default_document
    settings import_module (model name : string) (w : World)
    (module : gmap string pyobj) (d : Document) (p : string) (rs : list string) :
  settings !! "MONGOENGINE_USER_DOCUMENT" = None ->
  import_module "mongoengine.django.auth" = Return module ->
  module !! "User" = Some (PyDocument d) ->
  USERNAME_FIELD d = Some p ->
  REQUIRED_FIELDS d = Some rs ->
  MONGOENGINE_USER_DOCUMENT settings = "mongoengine.django.auth.User" /\
  exists w',
    contribute_to_class settings import_module model name w = (Return tt, w') /\
    self_model w' = PyDocument d /\
    cls_USERNAME_FIELD (cls_of w' model) = Some p /\
    cls_REQUIRED_FIELDS (cls_of w' model) = Some rs.
Proof.
  intros Hunset Himp Hattr Hp Hrs.
  assert (Hname : MONGOENGINE_USER_DOCUMENT settings = "mongoengine.django.auth.User").
  { unfold MONGOENGINE_USER_DOCUMENT. rewrite Hunset. reflexivity. }
  split; [exact Hname|].
  assert (Hdoc : fst (_get_user_document settings import_module w)
                 = Return (PyDocument d)).
  { rewrite _get_user_document_eq. cbv zeta. rewrite Hname.
    replace (PyStr.rindex "mongoengine.django.auth.User" ".") with (Some 23)
      by reflexivity.
    replace (PyStr.take 23 "mongoengine.django.auth.User")
      with "mongoengine.django.auth" by reflexivity.
    replace (PyStr.drop (23 + 1) "mongoengine.django.auth.User") with "User"
      by reflexivity.
    rewrite Himp. unfold getattr. rewrite Hattr. reflexivity. }
  pose proof (contribute_to_class_document _ _ model name _ d p rs Hdoc Hp Hrs)
    as Hrun.
  set (c0 := cls_of w model) in *. clearbody c0.
  eexists. split; [exact Hrun|].
  unfold cls_of. cbn [classes self_model]. rewrite lookup_insert_eq.
  repeat split.
Qed.

Lemma unset_setting_uses_default_document_witness :
  MONGOENGINE_USER_DOCUMENT Deployment.unset = "mongoengine.django.auth.User" /\
  exists w',
    contribute_to_class Deployment.unset Deployment.import_module
      "MongoUser" "objects" Deployment.initial = (Return tt, w') /\
    self_model w' = PyDocument Deployment.User /\
    cls_USERNAME_FIELD (cls_of w' "MongoUser") = Some "username" /\
    cls_REQUIRED_FIELDS (cls_of w' "MongoUser") = Some ["email"].
Proof.
  apply (unset_setting_uses_default_document
           Deployment.unset Deployment.import_module "MongoUser" "objects"
           Deployment.initial {[ "User" := PyDocument Deployment.User ]}
           Deployment.User "username" ["email"]);
    vm_compute; reflexivity.
Defined.

(** ** Registration order of the contributed fields *)

Lemma last_registered_Some (name : string) (fields : list CharField) (g : CharField) :
  last_registered name fields = Some g ->
  In g fields /\ field_name g = Some name.
Proof.
  induction fields as [|f fs IH]; simpl; [discriminate|].
  destruct (last_registered name fs) as [g'|].
  - intros [= <-]. destruct IH as [Hin Hn]; auto.
  - destruct (decide (field_name f = Some name)); [|discriminate].
    intros [= <-]. auto.
Qed.

Lemma last_registered_None (name : string) (fields : list CharField) :
  last_registered name fields = None ->
  forall f, In f fields -> field_name f <> Some name.
Proof.
  induction fields as [|f fs IH]; simpl; [tauto|].
  destruct (last_registered name fs) as [g'|]; [discriminate|].
  destruct (decide (field_name f = Some name)) as [|Hne]; [discriminate|].
  intros _ f' [<-|Hin]; auto.
Qed.

Lemma last_registered_app (name : string) (before after : list CharField) (g : CharField) :
  last_registered name after = Some g ->
  last_registered name (before ++ after) = Some g.
Proof.
  intros H. induction before as [|f fs IH]; simpl; [exact H|].
  rewrite IH. reflexivity.
Qed.

Lemma last_registered_required (p : string) (rs : list string) :
  In p rs ->
  last_registered p (map required_field rs) = Some (required_field p).
Proof.
  intros Hin.
  destruct (last_registered p (map required_field rs)) as [g|] eqn:E.
  - apply last_registered_Some in E as [Hg Hn].
    apply in_map_iff in Hg as (r & <- & _).
    simpl in Hn. injection Hn as ->. reflexivity.
  - exfalso. apply (last_registered_None _ _ E (required_field p)).
    + apply in_map_iff. eauto.
    + reflexivity.
Qed.

(** C10: when the primary field name [p] is also listed among the required
    fields, [contribute_to_class] contributes under [p] first the unique
    field and later a second field that is not unique, so that the field
    contributed last under [p] is not unique. *)
Theorem primary_field_listed_as_required_ends_non_unique
    settings import_module (model name : string) (w : World)
    (d : Document) (p : string) (rs : list string) :
  fst (_get_user_document settings import_module w) = Return (PyDocument d) ->
  USERNAME_FIELD d = Some p ->
  REQUIRED_FIELDS d = Some rs ->
  In p rs ->
  exists w',
    contribute_to_class settings import_module model name w = (Return tt, w') /\
    (exists first second later,
       cls_fields (cls_of w' model) =
         (cls_fields (cls_of w model) ++ first :: later)%list /\
       In second later /\
       field_name first = Some p /\ unique first = true /\
       field_name second = Some p /\ unique second = false) /\
    (exists f, last_registered p (cls_fields (cls_of w' model)) = Some f /\
       unique f = false).
Proof.
  intros Hdoc Hp Hrs Hin.
  pose proof (contribute_to_class_document _ _ model name _ d p rs Hdoc Hp Hrs)
    as Hrun.
  set (c0 := cls_of w model) in *. clearbody c0.
  eexists. split; [exact Hrun|].
  unfold cls_of. cbn [classes]. rewrite lookup_insert_eq.
  cbn [default from_option id cls_fields]. split.
  - exists (username_field p), (required_field p), (map required_field rs).
    split; [reflexivity|]. split; [apply in_map_iff; eauto|].
    repeat split.
  - exists (required_field p). split; [|reflexivity].
    apply last_registered_app.
    change (username_field p :: map required_field rs)
      with ([username_field p] ++ map required_field rs)%list.
    apply last_registered_app, last_registered_required, Hin.
Qed.

Lemma primary_field_listed_as_required_ends_non_unique_witness :
  exists w',
    contribute_to_class Deployment.custom Deployment.import_module
      "MongoUser" "objects" Deployment.initial = (Return tt, w') /\
    (exists first second later,
       cls_fields (cls_of w' "MongoUser") =
         (cls_fields (cls_of Deployment.initial "MongoUser") ++ first :: later)%list /\
       In second later /\
       field_name first = Some "login" /\ unique first = true /\
       field_name second = Some "login" /\ unique second = false) /\
    (exists f, last_registered "login" (cls_fields (cls_of w' "MongoUser")) = Some f /\
       unique f = false).
Proof.
  apply (primary_field_listed_as_required_ends_non_unique
           Deployment.custom Deployment.import_module "MongoUser" "objects"
           Deployment.initial Deployment.Account "login" ["email"; "login"]);
    try (vm_compute; reflexivity).
  right. left. reflexivity.
Defined.

(** On that deployment the class ends with three fields, two named [login]. *)
Example account_fields :
  map (fun f => (field_name f, unique f))
    (cls_fields (cls_of
       (snd (contribute_to_class Deployment.custom Deployment.import_module
               "MongoUser" "objects" Deployment.initial)) "MongoUser"))
  = [(Some "login", true); (Some "email", false); (Some "login", false)].
Proof. vm_compute. reflexivity. Qed.

(** ** Instances on the bridged deployment *)

Lemma bridged_bound : bound Deployment.bridged Deployment.User "MongoUser".
Proof. split; vm_compute; reflexivity. Defined.

Lemma bridged_staff_bound : bound Deployment.bridged_staff Deployment.User "StaffUser".
Proof. split; vm_compute; reflexivity. Defined.

Lemma get_raises_relational_DoesNotExist_witness :
  exists err,
    get Deployment.document_get (Deployment.by_username "bob") Deployment.bridged
      = (Raise err, Deployment.bridged) /\
    get_DoesNotExist (PyModelClass "MongoUser") = Return (exc_type err) /\
    get_DoesNotExist (PyDocument Deployment.User) <> Return (exc_type err).
Proof.
  apply (get_raises_relational_DoesNotExist
           Deployment.document_get (Deployment.by_username "bob")
           Deployment.bridged Deployment.User "MongoUser"
           (Exc (DoesNotExist (DocumentClass "mongoengine.django.auth.User"))
                "matching query does not exist"));
    [exact bridged_bound | vm_compute; reflexivity | reflexivity].
Defined.

(** A lookup that hits returns the stored document. *)
Example get_alice :
  fst (get Deployment.document_get (Deployment.by_username "alice") Deployment.bridged)
  = Return (PyInstance Deployment.alice).
Proof. vm_compute. reflexivity. Qed.

Lemma get_empty_query_set_is_empty_witness :
  exists q,
    get_empty_query_set Deployment.bridged = (Return (PyQuerySet q), Deployment.bridged) /\
    q = QuerySet_none (Document_objects Deployment.User) /\
    (forall store, QuerySet_count q store = 0).
Proof.
  apply (get_empty_query_set_is_empty Deployment.bridged Deployment.User "MongoUser").
  exact bridged_bound.
Defined.

(** The default query set of the same manager does see the stored user. *)
Example get_query_set_counts_alice :
  match fst (get_query_set Deployment.bridged) with
  | Return (PyQuerySet q) => QuerySet_count q (collections Deployment.bridged)
  | _ => 0
  end = 1.
Proof. vm_compute. reflexivity. Qed.

(** ** Which side the query operations touch *)

(** C4 as stated, read as "each of [get], [get_query_set] and
    [get_empty_query_set] works on the document side only", fails for [get]: the same
    document class and the same stored documents, behind two relational
    classes, give two different answers to a lookup that misses, because
    [get] fetches the exception it raises from [self.dj_model]. *)
Lemma get_is_not_document_side_only :
  ~ (document_side_only
       (get Deployment.document_get (Deployment.by_username "bob")) /\
     document_side_only get_query_set /\
     document_side_only get_empty_query_set).
Proof.
  intros [Hget _].
  assert (Hstore : collections Deployment.bridged
                   = collections Deployment.bridged_staff)
    by (vm_compute; reflexivity).
  destruct (Hget _ _ _ _ _ bridged_bound bridged_staff_bound Hstore) as [Hfst _].
  vm_compute in Hfst. discriminate Hfst.
Qed.

(** C4, amended: on a bound manager each query operation resolves against
    the document class [self.model] and its query interface, and changes
    nothing in the world.  [get_query_set] returns the default query set of
    the document class; [get_empty_query_set] returns what [none()] makes of
    that query set; [get] gives the outcome of the document layer's lookup
    on that query set, with the criteria it was passed, over the stored
    documents: the value found, or the exception raised.  The relational
    class enters in one place only: when the lookup raises the document
    class's [DoesNotExist], [get] raises the [DoesNotExist] of
    [self.dj_model] in its stead.  Hence, behind two relational classes with
    any attributes, fields and tables, the same document class and stored
    documents give the same answers, except that a miss is reported by
    [get] as the [DoesNotExist] of the respective relational class. *)
Theorem queries_resolve_against_document_schema
    document_get (c : criteria) (d : Document) (r1 r2 : string) (w1 w2 : World) :
  bound w1 d r1 ->
  bound w2 d r2 ->
  collections w1 = collections w2 ->
  get_query_set w1 = (Return (PyQuerySet (Document_objects d)), w1) /\
  get_empty_query_set w1 =
    (Return (PyQuerySet (QuerySet_none (Document_objects d))), w1) /\
  get document_get c w1 =
    (match document_get (Document_objects d) c (collections w1) with
     | Return found => Return found
     | Raise e =>
         if decide (exc_type e = DoesNotExist (DocumentClass (doc_name d)))
         then Raise (Exc (DoesNotExist (ModelClass r1)) "")
         else Raise e
     end, w1) /\
  fst (get_query_set w1) = fst (get_query_set w2) /\
  fst (get_empty_query_set w1) = fst (get_empty_query_set w2) /\
  (fst (get document_get c w1) = fst (get document_get c w2) \/
   exists e,
     document_get (Document_objects d) c (collections w1) = Raise e /\
     exc_type e = DoesNotExist (DocumentClass (doc_name d)) /\
     fst (get document_get c w1) = Raise (Exc (DoesNotExist (ModelClass r1)) "") /\
     fst (get document_get c w2) = Raise (Exc (DoesNotExist (ModelClass r2)) "")).
Proof.
  intros Hb1 Hb2 Hstore.
  rewrite (get_query_set_bound _ _ _ Hb1), (get_query_set_bound _ _ _ Hb2).
  rewrite (get_empty_query_set_bound _ _ _ Hb1), (get_empty_query_set_bound _ _ _ Hb2).
  rewrite (get_bound _ _ _ _ _ Hb1), (get_bound _ _ _ _ _ Hb2).
  rewrite <- Hstore. cbn [fst].
  split; [reflexivity|]. split; [reflexivity|]. split; [reflexivity|].
  split; [reflexivity|]. split; [reflexivity|].
  destruct (document_get _ _ _) as [found|e]; [left; reflexivity|].
  destruct (decide _) as [Heq|_]; [|left; reflexivity].
  right. exists e. auto.
Qed.

(** A lookup that misses, behind [MongoUser] and behind [StaffUser]. *)
Lemma queries_resolve_against_document_schema_witness :
  get_query_set Deployment.bridged
    = (Return (PyQuerySet (Document_objects Deployment.User)), Deployment.bridged) /\
  get_empty_query_set Deployment.bridged =
    (Return (PyQuerySet (QuerySet_none (Document_objects Deployment.User))),
     Deployment.bridged) /\
  get Deployment.document_get (Deployment.by_username "bob") Deployment.bridged =
    (match Deployment.document_get (Document_objects Deployment.User)
             (Deployment.by_username "bob") (collections Deployment.bridged) with
     | Return found => Return found
     | Raise e =>
         if decide (exc_type e
                    = DoesNotExist (DocumentClass (doc_name Deployment.User)))
         then Raise (Exc (DoesNotExist (ModelClass "MongoUser")) "")
         else Raise e
     end, Deployment.bridged) /\
  fst (get_query_set Deployment.bridged)
    = fst (get_query_set Deployment.bridged_staff) /\
  fst (get_empty_query_set Deployment.bridged)
    = fst (get_empty_query_set Deployment.bridged_staff) /\
  (fst (get Deployment.document_get (Deployment.by_username "bob")
          Deployment.bridged)
   = fst (get Deployment.document_get (Deployment.by_username "bob")
            Deployment.bridged_staff) \/
   exists e,
     Deployment.document_get (Document_objects Deployment.User)
       (Deployment.by_username "bob") (collections Deployment.bridged) = Raise e /\
     exc_type e = DoesNotExist (DocumentClass (doc_name Deployment.User)) /\
     fst (get Deployment.document_get (Deployment.by_username "bob")
            Deployment.bridged)
       = Raise (Exc (DoesNotExist (ModelClass "MongoUser")) "") /\
     fst (get Deployment.document_get (Deployment.by_username "bob")
            Deployment.bridged_staff)
       = Raise (Exc (DoesNotExist (ModelClass "StaffUser")) "")).
Proof.
  apply (queries_resolve_against_document_schema
           Deployment.document_get (Deployment.by_username "bob")
           Deployment.User "MongoUser" "StaffUser"
           Deployment.bridged Deployment.bridged_staff
           bridged_bound bridged_staff_bound).
  vm_compute. reflexivity.
Defined.

(** On that deployment the lookup for a stored user returns the stored
    document behind either class, and the lookup for an unknown user ends in
    the exception of the class the manager was contributed to. *)
Example queries_on_both_classes :
  fst (get Deployment.document_get (Deployment.by_username "alice")
         Deployment.bridged) = Return (PyInstance Deployment.alice) /\
  fst (get Deployment.document_get (Deployment.by_username "alice")
         Deployment.bridged_staff) = Return (PyInstance Deployment.alice) /\
  fst (get Deployment.document_get (Deployment.by_username "bob")
         Deployment.bridged) = Raise (Exc (DoesNotExist (ModelClass "MongoUser")) "") /\
  fst (get Deployment.document_get (Deployment.by_username "bob")
         Deployment.bridged_staff) = Raise (Exc (DoesNotExist (ModelClass "StaffUser")) "").
Proof. vm_compute. repeat split. Qed.

(** ** The manager outside the bound state *)

Example rindex_last_dot : PyStr.rindex "a.b.c" "." = Some 3.
Proof. reflexivity. Qed.

Example rindex_no_dot : PyStr.rindex "User" "." = None.
Proof. reflexivity. Qed.

(** A manager that was never attached has no document class to ask. *)
Example get_unbound :
  fst (get Deployment.document_get (Deployment.by_username "alice")
         Deployment.initial)
  = Raise (Exc AttributeError "DoesNotExist").
Proof. vm_compute. reflexivity. Qed.

Example get_empty_query_set_unbound :
  fst (get_empty_query_set Deployment.initial) = Raise (Exc AttributeError "objects").
Proof. vm_compute. reflexivity. Qed.

Example db_unbound :
  fst (db Deployment.initial) = Raise (Exc NotImplementedError "").
Proof. reflexivity. Qed.

Example db_bridged :
  fst (db Deployment.bridged) = Raise (Exc NotImplementedError "").
Proof. reflexivity. Qed.

(** Class definition under a name whose module does not exist. *)
Example contribute_to_class_unreachable :
  fst (contribute_to_class Deployment.unreachable Deployment.import_module
         "MongoUser" "objects" Deployment.initial)
  = Raise (Exc ImproperlyConfigured
      "Error importing missing.documents.User, please check settings.MONGOENGINE_USER_DOCUMENT").
Proof. vm_compute. reflexivity. Qed.

(** The relational tables are the same before and after class definition. *)
Example contribute_to_class_keeps_tables :
  tables Deployment.bridged = tables Deployment.initial.
Proof. vm_compute. reflexivity. Qed.

(** ** Further properties of [get] *)

(** X1: on a bound manager [get] returns a value exactly when the document
    layer's lookup returns it, and then it is that very value: a result is
    neither made up nor altered, and an exception is never swallowed. *)
Theorem get_returns_exactly_what_the_lookup_returns
    document_get (c : criteria) (w : World) (d : Document) (r : string) (v : pyobj) :
  bound w d r ->
  (fst (get document_get c w) = Return v <->
   document_get (Document_objects d) c (collections w) = Return v).
Proof.
  intros Hb. rewrite (get_bound _ _ _ _ _ Hb). cbn [fst].
  destruct (document_get _ _ _) as [v'|e].
  - split; intros H; exact H.
  - destruct (decide _); split; discriminate.
Qed.

Lemma get_returns_exactly_what_the_lookup_returns_witness :
  fst (get Deployment.document_get (Deployment.by_username "alice")
         Deployment.bridged) = Return (PyInstance Deployment.alice) <->
  Deployment.document_get (Document_objects Deployment.User)
    (Deployment.by_username "alice") (collections Deployment.bridged)
  = Return (PyInstance Deployment.alice).
Proof.
  apply (get_returns_exactly_what_the_lookup_returns
           Deployment.document_get (Deployment.by_username "alice")
           Deployment.bridged Deployment.User "MongoUser").
  exact bridged_bound.
Defined.

(** X2: on a bound manager every exception of the document layer other than
    the document class's own [DoesNotExist] leaves [get] as it is, class and
    message, and the world is unchanged. *)
Theorem get_reraises_other_exceptions
    document_get (c : criteria) (w : World) (d : Document) (r : string)
    (e : exception) :
  bound w d r ->
  document_get (Document_objects d) c (collections w) = Raise e ->
  exc_type e <> DoesNotExist (DocumentClass (doc_name d)) ->
  get document_get c w = (Raise e, w).
Proof.
  intros Hb Hget Hne. rewrite (get_bound _ _ _ _ _ Hb), Hget.
  destruct (decide _) as [Heq|_]; [contradiction|reflexivity].
Qed.

Lemma get_reraises_other_exceptions_witness :
  get Deployment.document_get (Deployment.by_username "alice") Faulty.crowded
  = (Raise (Exc (OtherError "MultipleObjectsReturned") ""), Faulty.crowded).
Proof.
  apply (get_reraises_other_exceptions
           Deployment.document_get (Deployment.by_username "alice")
           Faulty.crowded Deployment.User "MongoUser").
  - split; vm_compute; reflexivity.
  - vm_compute. reflexivity.
  - discriminate.
Defined.

(** X3: the exception [get] raises for a miss is built from the relational
    class alone: it carries no message, so two misses reported by the
    document layer with different messages, or for different criteria, give
    the same exception. *)
Theorem get_translation_drops_the_message
    document_get (c1 c2 : criteria) (w : World) (d : Document) (r : string)
    (e1 e2 : exception) :
  bound w d r ->
  document_get (Document_objects d) c1 (collections w) = Raise e1 ->
  document_get (Document_objects d) c2 (collections w) = Raise e2 ->
  exc_type e1 = DoesNotExist (DocumentClass (doc_name d)) ->
  exc_type e2 = DoesNotExist (DocumentClass (doc_name d)) ->
  fst (get document_get c1 w) = fst (get document_get c2 w) /\
  exists err, fst (get document_get c1 w) = Raise err /\ exc_msg err = "".
Proof.
  intros Hb H1 H2 He1 He2.
  rewrite !(get_bound _ _ _ _ _ Hb), H1, H2. cbn [fst].
  destruct (decide (exc_type e1 = _)) as [_|Hne]; [|contradiction].
  destruct (decide (exc_type e2 = _)) as [_|Hne]; [|contradiction].
  split; [reflexivity|]. eexists. split; reflexivity.
Qed.

Lemma get_translation_drops_the_message_witness :
  fst (get Deployment.document_get (Deployment.by_username "bob") Deployment.bridged)
  = fst (get Deployment.document_get (Deployment.by_username "carol") Deployment.bridged) /\
  exists err,
    fst (get Deployment.document_get (Deployment.by_username "bob") Deployment.bridged)
    = Raise err /\ exc_msg err = "".
Proof.
  apply (get_translation_drops_the_message
           Deployment.document_get
           (Deployment.by_username "bob") (Deployment.by_username "carol")
           Deployment.bridged Deployment.User "MongoUser"
           (Exc (DoesNotExist (DocumentClass "mongoengine.django.auth.User"))
                "matching query does not exist")
           (Exc (DoesNotExist (DocumentClass "mongoengine.django.auth.User"))
                "matching query does not exist"));
    [exact bridged_bound | vm_compute; reflexivity | vm_compute; reflexivity
    | reflexivity | reflexivity].
Defined.

(** X4: before the manager is attached ([self.model] is [None]) the three
    query operations raise [AttributeError], whatever the criteria and the
    document layer, and leave the world unchanged. *)
Theorem unattached_manager_raises_AttributeError
    document_get (c : criteria) (w : World) :
  self_model w = PyNone ->
  (exists err, get document_get c w = (Raise err, w) /\ exc_type err = AttributeError) /\
  (exists err, get_query_set w = (Raise err, w) /\ exc_type err = AttributeError) /\
  (exists err, get_empty_query_set w = (Raise err, w) /\ exc_type err = AttributeError).
Proof.
  intros Hm.
  assert (Hqs : get_query_set w = (Raise (Exc AttributeError "objects"), w)).
  { unfold get_query_set, bind, gets, get_objects. rewrite Hm. reflexivity. }
  split; [|split].
  - exists (Exc AttributeError "DoesNotExist"). split; [|reflexivity].
    unfold get, try_except.
    rewrite (bind_Raise _ _ _ _ _ Hqs).
    unfold bind, gets, lift, get_DoesNotExist. cbv beta iota.
    rewrite Hm. reflexivity.
  - eexists. split; [exact Hqs|reflexivity].
  - exists (Exc AttributeError "objects"). split; [|reflexivity].
    unfold get_empty_query_set, bind, gets, get_objects. rewrite Hm. reflexivity.
Qed.

Lemma unattached_manager_raises_AttributeError_witness :
  (exists err,
     get Deployment.document_get (Deployment.by_username "alice") Deployment.initial
     = (Raise err, Deployment.initial) /\ exc_type err = AttributeError) /\
  (exists err, get_query_set Deployment.initial = (Raise err, Deployment.initial) /\
     exc_type err = AttributeError) /\
  (exists err, get_empty_query_set Deployment.initial = (Raise err, Deployment.initial) /\
     exc_type err = AttributeError).
Proof.
  apply (unattached_manager_raises_AttributeError
           Deployment.document_get (Deployment.by_username "alice")
           Deployment.initial).
  reflexivity.
Defined.

(** ** Further properties of schema resolution *)

(** X5: an exception of the import other than [ImportError] passes through
    resolution as it is; it is not turned into [ImproperlyConfigured]. *)
Theorem resolution_passes_other_import_failures
    settings import_module (w : World) (name : string) (dot : nat) (e : exception) :
  MONGOENGINE_USER_DOCUMENT settings = name ->
  PyStr.rindex name "." = Some dot ->
  import_module (PyStr.take dot name) = Raise e ->
  exc_type e <> ImportError ->
  _get_user_document settings import_module w = (Raise e, w).
Proof.
  intros Hname Hdot Himp Hne.
  rewrite _get_user_document_eq. cbv zeta. rewrite Hname, Hdot, Himp.
  destruct (decide _) as [Heq|_]; [contradiction|reflexivity].
Qed.

Lemma resolution_passes_other_import_failures_witness :
  _get_user_document Faulty.broken Faulty.import_module Deployment.initial
  = (Raise (Exc (OtherError "SyntaxError") "invalid syntax"), Deployment.initial).
Proof.
  apply (resolution_passes_other_import_failures
           Faulty.broken Faulty.import_module Deployment.initial
           "broken.documents.User" 16);
    [vm_compute; reflexivity | vm_compute; reflexivity | vm_compute; reflexivity
    | discriminate].
Defined.

(** X6: resolution returns a value only as the attribute, under the part of
    the name after its last separator, of the module imported under the part
    before it; there is no fallback to the default name or to anything
    else. *)
Theorem resolution_returns_only_the_named_attribute
    settings import_module (w w' : World) (v : pyobj) :
  _get_user_document settings import_module w = (Return v, w') ->
  w' = w /\
  exists dot module,
    PyStr.rindex (MONGOENGINE_USER_DOCUMENT settings) "." = Some dot /\
    import_module (PyStr.take dot (MONGOENGINE_USER_DOCUMENT settings))
      = Return module /\
    module !! PyStr.drop (dot + 1) (MONGOENGINE_USER_DOCUMENT settings) = Some v.
Proof.
  rewrite _get_user_document_eq. cbv zeta.
  destruct (PyStr.rindex _ _) as [dot|]; [|discriminate].
  destruct (import_module _) as [module|e] eqn:Himp.
  - unfold getattr, attribute_error.
    destruct (module !! _) as [v'|] eqn:Hattr; [|discriminate].
    intros [= -> <-]. split; [reflexivity|]. exists dot, module. auto.
  - destruct (decide _); discriminate.
Qed.

Lemma resolution_returns_only_the_named_attribute_witness :
  Deployment.initial = Deployment.initial /\
  exists dot module,
    PyStr.rindex (MONGOENGINE_USER_DOCUMENT Deployment.custom) "." = Some dot /\
    Deployment.import_module
      (PyStr.take dot (MONGOENGINE_USER_DOCUMENT Deployment.custom))
      = Return module /\
    module !! PyStr.drop (dot + 1) (MONGOENGINE_USER_DOCUMENT Deployment.custom)
      = Some (PyDocument Deployment.Account).
Proof.
  apply (resolution_returns_only_the_named_attribute
           Deployment.custom Deployment.import_module
           Deployment.initial Deployment.initial (PyDocument Deployment.Account)).
  vm_compute. reflexivity.
Defined.

(** ** Class contribution that does not complete *)

Lemma get_USERNAME_FIELD_missing (w : World) (o : pyobj) (d : Document) :
  o = PyDocument d -> USERNAME_FIELD d = None ->
  get_USERNAME_FIELD o w = (Raise (Exc AttributeError "USERNAME_FIELD"), w).
Proof. intros -> H. unfold get_USERNAME_FIELD. rewrite H. reflexivity. Qed.

Lemma get_REQUIRED_FIELDS_missing (w : World) (o : pyobj) (d : Document) :
  o = PyDocument d -> REQUIRED_FIELDS d = None ->
  get_REQUIRED_FIELDS o w = (Raise (Exc AttributeError "REQUIRED_FIELDS"), w).
Proof. intros -> H. unfold get_REQUIRED_FIELDS. rewrite H. reflexivity. Qed.

Ltac stop_with tac := erewrite bind_Raise; [|tac].

Ltac read_class :=
  unfold cls_of, update_cls, set_classes, set_self_model, set_self_dj_model, cls_of;
  cbn [classes self_model self_dj_model tables collections];
  rewrite ?lookup_insert_eq;
  cbn [default from_option id
       cls_USERNAME_FIELD cls_REQUIRED_FIELDS cls_fields cls_managers].

(** X7: when resolution raises, class contribution raises the same
    exception.  By then the manager holds the relational class both as
    [self.model] and as [self.dj_model]; the class has received no field and
    its [USERNAME_FIELD] and [REQUIRED_FIELDS] are as before. *)
Theorem contribute_to_class_stops_at_failed_resolution
    settings import_module (model name : string) (w : World) (e : exception) :
  fst (_get_user_document settings import_module w) = Raise e ->
  exists w',
    contribute_to_class settings import_module model name w = (Raise e, w') /\
    self_model w' = PyModelClass model /\
    self_dj_model w' = Some (PyModelClass model) /\
    cls_fields (cls_of w' model) = cls_fields (cls_of w model) /\
    cls_USERNAME_FIELD (cls_of w' model) = cls_USERNAME_FIELD (cls_of w model) /\
    cls_REQUIRED_FIELDS (cls_of w' model) = cls_REQUIRED_FIELDS (cls_of w model).
Proof.
  intros Hres. unfold contribute_to_class.
  run. run. run.
  stop_with ltac:(apply (_get_user_document_at _ _ w _ _ Hres)).
  eexists. split; [reflexivity|].
  split; [reflexivity|]. split; [reflexivity|].
  read_class. repeat split.
Qed.

Lemma contribute_to_class_stops_at_failed_resolution_witness :
  exists w',
    contribute_to_class Deployment.unreachable Deployment.import_module
      "MongoUser" "objects" Deployment.initial
    = (Raise (Exc ImproperlyConfigured
         "Error importing missing.documents.User, please check settings.MONGOENGINE_USER_DOCUMENT"),
       w') /\
    self_model w' = PyModelClass "MongoUser" /\
    self_dj_model w' = Some (PyModelClass "MongoUser") /\
    cls_fields (cls_of w' "MongoUser")
      = cls_fields (cls_of Deployment.initial "MongoUser") /\
    cls_USERNAME_FIELD (cls_of w' "MongoUser")
      = cls_USERNAME_FIELD (cls_of Deployment.initial "MongoUser") /\
    cls_REQUIRED_FIELDS (cls_of w' "MongoUser")
      = cls_REQUIRED_FIELDS (cls_of Deployment.initial "MongoUser").
Proof.
  apply (contribute_to_class_stops_at_failed_resolution
           Deployment.unreachable Deployment.import_module "MongoUser" "objects"
           Deployment.initial).
  vm_compute. reflexivity.
Defined.

(** X8: when the resolved document class has no [USERNAME_FIELD], class
    contribution raises [AttributeError].  The manager already holds the
    document class as [self.model]; the relational class has received no
    field and neither of the two attributes. *)
Theorem contribute_to_class_without_USERNAME_FIELD
    settings import_module (model name : string) (w : World) (d : Document) :
  fst (_get_user_document settings import_module w) = Return (PyDocument d) ->
  USERNAME_FIELD d = None ->
  exists err w',
    contribute_to_class settings import_module model name w = (Raise err, w') /\
    exc_type err = AttributeError /\
    self_model w' = PyDocument d /\
    self_dj_model w' = Some (PyModelClass model) /\
    cls_fields (cls_of w' model) = cls_fields (cls_of w model) /\
    cls_USERNAME_FIELD (cls_of w' model) = cls_USERNAME_FIELD (cls_of w model) /\
    cls_REQUIRED_FIELDS (cls_of w' model) = cls_REQUIRED_FIELDS (cls_of w model).
Proof.
  intros Hdoc Hp. unfold contribute_to_class.
  run. run. run.
  run_with ltac:(apply (_get_user_document_at _ _ w _ _ Hdoc)).
  run. run.
  stop_with ltac:(apply (get_USERNAME_FIELD_missing _ _ d); [reflexivity|exact Hp]).
  eexists. eexists. split; [reflexivity|].
  split; [reflexivity|]. split; [reflexivity|]. split; [reflexivity|].
  read_class. repeat split.
Qed.

Lemma contribute_to_class_without_USERNAME_FIELD_witness :
  exists err w',
    contribute_to_class Faulty.nameless Faulty.import_module
      "MongoUser" "objects" Deployment.initial = (Raise err, w') /\
    exc_type err = AttributeError /\
    self_model w' = PyDocument Faulty.Nameless /\
    self_dj_model w' = Some (PyModelClass "MongoUser") /\
    cls_fields (cls_of w' "MongoUser")
      = cls_fields (cls_of Deployment.initial "MongoUser") /\
    cls_USERNAME_FIELD (cls_of w' "MongoUser")
      = cls_USERNAME_FIELD (cls_of Deployment.initial "MongoUser") /\
    cls_REQUIRED_FIELDS (cls_of w' "MongoUser")
      = cls_REQUIRED_FIELDS (cls_of Deployment.initial "MongoUser").
Proof.
  apply (contribute_to_class_without_USERNAME_FIELD
           Faulty.nameless Faulty.import_module "MongoUser" "objects"
           Deployment.initial Faulty.Nameless);
    vm_compute; reflexivity.
Defined.

(** X9: when the resolved document class has a [USERNAME_FIELD] [p] and no
    [REQUIRED_FIELDS], class contribution raises [AttributeError] half way:
    the relational class already has [USERNAME_FIELD] set to [p] and the
    unique field under [p] appended, and nothing else; its [REQUIRED_FIELDS]
    is as before. *)
Theorem contribute_to_class_without_REQUIRED_FIELDS
    settings import_module (model name : string) (w : World)
    (d : Document) (p : string) :
  fst (_get_user_document settings import_module w) = Return (PyDocument d) ->
  USERNAME_FIELD d = Some p ->
  REQUIRED_FIELDS d = None ->
  exists err w',
    contribute_to_class settings import_module model name w = (Raise err, w') /\
    exc_type err = AttributeError /\
    self_model w' = PyDocument d /\
    cls_USERNAME_FIELD (cls_of w' model) = Some p /\
    cls_fields (cls_of w' model) =
      (cls_fields (cls_of w model) ++
       [ {| verbose_name := ugettext_lazy "username"; max_length := 30;
            unique := true; field_name := Some p |} ])%list /\
    cls_REQUIRED_FIELDS (cls_of w' model) = cls_REQUIRED_FIELDS (cls_of w model).
Proof.
  intros Hdoc Hp Hrs. unfold contribute_to_class.
  run. run. run.
  run_with ltac:(apply (_get_user_document_at _ _ w _ _ Hdoc)).
  run. run.
  run_with ltac:(apply (get_USERNAME_FIELD_doc _ _ d p); [reflexivity|exact Hp]).
  run_dj. run. cbv zeta. run_dj. run_dj.
  run_with ltac:(eapply get_USERNAME_FIELD_cls; [apply lookup_insert_eq|reflexivity]).
  run. run.
  stop_with ltac:(apply (get_REQUIRED_FIELDS_missing _ _ d); [reflexivity|exact Hrs]).
  eexists. eexists. split; [reflexivity|].
  split; [reflexivity|]. split; [reflexivity|].
  read_class. repeat split.
Qed.

Lemma contribute_to_class_without_REQUIRED_FIELDS_witness :
  exists err w',
    contribute_to_class Faulty.halfway Faulty.import_module
      "MongoUser" "objects" Deployment.initial = (Raise err, w') /\
    exc_type err = AttributeError /\
    self_model w' = PyDocument Faulty.Halfway /\
    cls_USERNAME_FIELD (cls_of w' "MongoUser") = Some "login" /\
    cls_fields (cls_of w' "MongoUser") =
      (cls_fields (cls_of Deployment.initial "MongoUser") ++
       [ {| verbose_name := ugettext_lazy "username"; max_length := 30;
            unique := true; field_name := Some "login" |} ])%list /\
    cls_REQUIRED_FIELDS (cls_of w' "MongoUser")
      = cls_REQUIRED_FIELDS (cls_of Deployment.initial "MongoUser").
Proof.
  apply (contribute_to_class_without_REQUIRED_FIELDS
           Faulty.halfway Faulty.import_module "MongoUser" "objects"
           Deployment.initial Faulty.Halfway "login");
    vm_compute; reflexivity.
Defined.

(** ** What class contribution leaves alone, in every outcome *)

Lemma keeps_bind {A B} (I : World -> Prop) (m : M A) (k : A -> M B) :
  keeps I m -> (forall a, keeps I (k a)) -> keeps I (bind m k).
Proof.
  intros Hm Hk w Hw. unfold bind. specialize (Hm w Hw).
  destruct (m w) as [[a|e] w']; cbn [snd] in *.
  - apply Hk, Hm.
  - exact Hm.
Qed.

Lemma keeps_apply {A} (I : World -> Prop) (m : M A) (w : World) :
  keeps I m -> I w -> I (snd (m w)).
Proof. intros H Hw. exact (H w Hw). Qed.

Lemma keeps_unchanged {A} (I : World -> Prop) (m : M A) :
  (forall w, snd (m w) = w) -> keeps I m.
Proof. intros H w Hw. rewrite H. exact Hw. Qed.

Lemma keeps_for_each {A} (I : World -> Prop) (l : list A) (body : A -> M unit) :
  (forall x, keeps I (body x)) -> keeps I (for_each l body).
Proof.
  intros Hbody. induction l as [|x l IH]; cbn [for_each].
  - apply keeps_unchanged. reflexivity.
  - apply keeps_bind; [apply Hbody | intros _; exact IH].
Qed.

Lemma get_USERNAME_FIELD_unchanged (o : pyobj) (w : World) :
  snd (get_USERNAME_FIELD o w) = w.
Proof. destruct o; reflexivity. Qed.

Lemma get_REQUIRED_FIELDS_unchanged (o : pyobj) (w : World) :
  snd (get_REQUIRED_FIELDS o w) = w.
Proof. destruct o; reflexivity. Qed.

Lemma contributing_refl_after_attach (model name : string) (w : World) :
  contributing model w
    (set_self_dj_model (PyModelClass model)
       (set_self_model (PyModelClass model)
          (update_cls model (fun c =>
             {| cls_USERNAME_FIELD := cls_USERNAME_FIELD c;
                cls_REQUIRED_FIELDS := cls_REQUIRED_FIELDS c;
                cls_fields := cls_fields c;
                cls_managers := name :: cls_managers c |}) w))).
Proof.
  split; [reflexivity|]. split; [reflexivity|]. split; [reflexivity|]. split.
  - intros r Hr. cbn. apply lookup_insert_ne. congruence.
  - exists []. read_class. rewrite app_nil_r. reflexivity.
Qed.

(** While the manager is being contributed, reading [self.dj_model] gives
    the class. *)
Lemma keeps_with_dj {B} (model : string) (w0 : World) (k : pyobj -> M B) :
  keeps (contributing model w0) (k (PyModelClass model)) ->
  keeps (contributing model w0) (bind get_self_dj_model k).
Proof.
  intros Hk w Hw.
  rewrite (bind_Return _ _ _ _ _ (get_self_dj_model_Some _ _ (proj1 Hw))).
  apply Hk, Hw.
Qed.

(** Updating the class in a way that only appends fields. *)
Lemma keeps_update_cls (model : string) (w0 : World) (f : ModelCls -> ModelCls) :
  (forall c, exists more, cls_fields (f c) = (cls_fields c ++ more)%list) ->
  keeps (contributing model w0) (modify (update_cls model f)).
Proof.
  intros Hf w (Hdj & Ht & Hc & Hother & more & Hfields).
  unfold modify. cbn [snd].
  split; [exact Hdj|]. split; [exact Ht|]. split; [exact Hc|]. split.
  - intros r Hr. cbn. rewrite lookup_insert_ne by congruence. apply Hother, Hr.
  - destruct (Hf (cls_of w model)) as [more' Hmore].
    exists (more ++ more')%list.
    unfold cls_of at 1. unfold update_cls, set_classes. cbn [classes].
    rewrite lookup_insert_eq. cbn [default from_option id].
    rewrite Hmore, Hfields, app_assoc. reflexivity.
Qed.

Lemma keeps_set_self_model (model : string) (w0 : World) (o : pyobj) :
  keeps (contributing model w0) (modify (set_self_model o)).
Proof. intros w Hw. exact Hw. Qed.

(** X10: however class contribution ends, by returning or by raising at any
    point, it has left the relational tables, the stored documents and every
    relational class other than the one it was called on as they were, and
    the fields that class had before are still there, in front of whatever
    was appended. *)
Theorem contribute_to_class_touches_one_class
    settings import_module (model name : string) (w : World) :
  let w' := snd (contribute_to_class settings import_module model name w) in
  tables w' = tables w /\
  collections w' = collections w /\
  (forall r, r <> model -> classes w' !! r = classes w !! r) /\
  exists more, cls_fields (cls_of w' model) = (cls_fields (cls_of w model) ++ more)%list.
Proof.
  cbv zeta.
  cut (contributing model w
         (snd (contribute_to_class settings import_module model name w))).
  { intros (_ & Ht & Hc & Ho & Hf). auto. }
  unfold contribute_to_class. run. run. run.
  apply (keeps_apply (contributing model w));
    [|exact (contributing_refl_after_attach model name w)].
  cbv zeta.
  apply keeps_bind;
    [apply keeps_unchanged; intros w1; apply _get_user_document_pure; exact w1|].
  intros doc. apply keeps_bind; [apply keeps_set_self_model|]. intros _.
  apply keeps_bind; [apply keeps_unchanged; reflexivity|]. intros doc'.
  apply keeps_bind;
    [apply keeps_unchanged; apply get_USERNAME_FIELD_unchanged|]. intros u.
  apply keeps_with_dj.
  apply keeps_bind;
    [apply keeps_update_cls; intros c; exists []; cbn; rewrite app_nil_r; reflexivity|].
  intros _. apply keeps_with_dj. apply keeps_with_dj.
  apply keeps_bind;
    [apply keeps_unchanged; apply get_USERNAME_FIELD_unchanged|]. intros key.
  apply keeps_bind;
    [apply keeps_update_cls; intros c; eexists; reflexivity|]. intros _.
  apply keeps_bind; [apply keeps_unchanged; reflexivity|]. intros doc''.
  apply keeps_bind;
    [apply keeps_unchanged; apply get_REQUIRED_FIELDS_unchanged|]. intros rf.
  apply keeps_with_dj.
  apply keeps_bind;
    [apply keeps_update_cls; intros c; exists []; cbn; rewrite app_nil_r; reflexivity|].
  intros _. apply keeps_with_dj.
  apply keeps_bind;
    [apply keeps_unchanged; apply get_REQUIRED_FIELDS_unchanged|]. intros names.
  apply keeps_for_each. intros x. apply keeps_with_dj.
  apply keeps_update_cls. intros c. eexists. reflexivity.
Qed.

(** On the deployment whose document class lacks [REQUIRED_FIELDS], the
    unrelated table and the stored user survive the failed class
    definition. *)
Example halfway_keeps_tables_and_documents :
  let w' := snd (contribute_to_class Faulty.halfway Faulty.import_module
                   "MongoUser" "objects" Deployment.initial) in
  tables w' = tables Deployment.initial /\
  collections w' = collections Deployment.initial.
Proof. vm_compute. split; reflexivity. Qed.

(** ** Contributing the manager more than once *)

Lemma resolution_again settings import_module (w w' : World) (r : result pyobj) :
  fst (_get_user_document settings import_module w) = r ->
  fst (_get_user_document settings import_module w') = r.
Proof.
  intros H. rewrite (_get_user_document_at _ _ w w' r H). reflexivity.
Qed.

(** X11: one manager contributed to a class [A] and then to another class
    [B] serves [B] only: [A] keeps what the first contribution gave it, but
    [self.dj_model] is now [B], so a lookup that misses raises the
    [DoesNotExist] of [B], never that of [A]. *)
Theorem contribute_to_class_rebinds_to_latest_class
    settings import_module document_get
    (A nameA B nameB : string) (w : World)
    (d : Document) (p : string) (rs : list string) :
  fst (_get_user_document settings import_module w) = Return (PyDocument d) ->
  USERNAME_FIELD d = Some p ->
  REQUIRED_FIELDS d = Some rs ->
  A <> B ->
  exists w1 w2,
    contribute_to_class settings import_module A nameA w = (Return tt, w1) /\
    contribute_to_class settings import_module B nameB w1 = (Return tt, w2) /\
    bound w2 d B /\
    classes w2 !! A = classes w1 !! A /\
    (forall c e,
       document_get (Document_objects d) c (collections w2) = Raise e ->
       exc_type e = DoesNotExist (DocumentClass (doc_name d)) ->
       fst (get document_get c w2) = Raise (Exc (DoesNotExist (ModelClass B)) "") /\
       fst (get document_get c w2) <> Raise (Exc (DoesNotExist (ModelClass A)) "")).
Proof.
  intros Hdoc Hp Hrs Hne.
  pose proof (contribute_to_class_document _ _ A nameA _ d p rs Hdoc Hp Hrs) as H1.
  match type of H1 with _ = (_, ?x) => set (w1 := x) in * end.
  pose proof (contribute_to_class_document _ _ B nameB w1 d p rs
                (resolution_again _ _ _ w1 _ Hdoc) Hp Hrs) as H2.
  match type of H2 with _ = (_, ?x) => set (w2 := x) in * end.
  assert (Hb : bound w2 d B) by (split; reflexivity).
  exists w1, w2. split; [exact H1|]. split; [exact H2|]. split; [exact Hb|]. split.
  - subst w2. cbn [classes]. apply lookup_insert_ne. congruence.
  - intros c e Hget He. rewrite (get_bound _ _ _ _ _ Hb), Hget. cbn [fst].
    destruct (decide _) as [_|Hn]; [|contradiction].
    split; [reflexivity|]. intros [= Heq]. apply Hne. symmetry. exact Heq.
Qed.

Lemma contribute_to_class_rebinds_to_latest_class_witness :
  exists w1 w2,
    contribute_to_class Deployment.unset Deployment.import_module
      "MongoUser" "objects" Deployment.initial = (Return tt, w1) /\
    contribute_to_class Deployment.unset Deployment.import_module
      "StaffUser" "objects" w1 = (Return tt, w2) /\
    bound w2 Deployment.User "StaffUser" /\
    classes w2 !! "MongoUser" = classes w1 !! "MongoUser" /\
    (forall c e,
       Deployment.document_get (Document_objects Deployment.User) c (collections w2)
         = Raise e ->
       exc_type e = DoesNotExist (DocumentClass (doc_name Deployment.User)) ->
       fst (get Deployment.document_get c w2)
         = Raise (Exc (DoesNotExist (ModelClass "StaffUser")) "") /\
       fst (get Deployment.document_get c w2)
         <> Raise (Exc (DoesNotExist (ModelClass "MongoUser")) "")).
Proof.
  apply (contribute_to_class_rebinds_to_latest_class
           Deployment.unset Deployment.import_module Deployment.document_get
           "MongoUser" "objects" "StaffUser" "objects" Deployment.initial
           Deployment.User "username" ["email"]);
    try (vm_compute; reflexivity).
  discriminate.
Defined.

(** X12: class contribution is not idempotent.  Run a second time on the same
    class it appends the same fields once more and binds the manager under
    the second name as well; nothing guards against the repetition. *)
Theorem contribute_to_class_twice_appends_twice
    settings import_module (model name1 name2 : string) (w : World)
    (d : Document) (p : string) (rs : list string) :
  fst (_get_user_document settings import_module w) = Return (PyDocument d) ->
  USERNAME_FIELD d = Some p ->
  REQUIRED_FIELDS d = Some rs ->
  exists w1 w2,
    contribute_to_class settings import_module model name1 w = (Return tt, w1) /\
    contribute_to_class settings import_module model name2 w1 = (Return tt, w2) /\
    cls_fields (cls_of w2 model) =
      (cls_fields (cls_of w model) ++
       (username_field p :: map required_field rs) ++
       (username_field p :: map required_field rs))%list /\
    cls_managers (cls_of w2 model) = name2 :: name1 :: cls_managers (cls_of w model).
Proof.
  intros Hdoc Hp Hrs.
  pose proof (contribute_to_class_document _ _ model name1 _ d p rs Hdoc Hp Hrs) as H1.
  set (c0 := cls_of w model) in *. clearbody c0.
  match type of H1 with _ = (_, ?x) => set (w1 := x) in * end.
  pose proof (contribute_to_class_document _ _ model name2 w1 d p rs
                (resolution_again _ _ _ w1 _ Hdoc) Hp Hrs) as H2.
  assert (Hc1 : cls_of w1 model =
                {| cls_USERNAME_FIELD := Some p; cls_REQUIRED_FIELDS := Some rs;
                   cls_fields := cls_fields c0 ++ username_field p :: map required_field rs;
                   cls_managers := name1 :: cls_managers c0 |}).
  { unfold cls_of. subst w1. cbn [classes]. rewrite lookup_insert_eq. reflexivity. }
  rewrite Hc1 in H2. cbn [cls_fields cls_managers] in H2.
  eexists. eexists. split; [exact H1|]. split; [exact H2|].
  unfold cls_of. cbn [classes]. rewrite lookup_insert_eq.
  cbn [default from_option id cls_fields cls_managers].
  rewrite <- app_assoc. split; reflexivity.
Qed.

Lemma contribute_to_class_twice_appends_twice_witness :
  exists w1 w2,
    contribute_to_class Deployment.unset Deployment.import_module
      "MongoUser" "objects" Deployment.initial = (Return tt, w1) /\
    contribute_to_class Deployment.unset Deployment.import_module
      "MongoUser" "users" w1 = (Return tt, w2) /\
    cls_fields (cls_of w2 "MongoUser") =
      (cls_fields (cls_of Deployment.initial "MongoUser") ++
       (username_field "username" :: map required_field ["email"]) ++
       (username_field "username" :: map required_field ["email"]))%list /\
    cls_managers (cls_of w2 "MongoUser")
      = "users" :: "objects" :: cls_managers (cls_of Deployment.initial "MongoUser").
Proof.
  apply (contribute_to_class_twice_appends_twice
           Deployment.unset Deployment.import_module "MongoUser" "objects" "users"
           Deployment.initial Deployment.User "username" ["email"]);
    vm_compute; reflexivity.
Defined.

(** ** Class contribution that returns *)

Lemma bind_Return_inv {A B} (m : M A) (k : A -> M B) (w w' : World) (b : B) :
  bind m k w = (Return b, w') ->
  exists a w1, m w = (Return a, w1) /\ k a w1 = (Return b, w').
Proof.
  unfold bind. destruct (m w) as [[a|e] w1]; [eauto|discriminate].
Qed.

Lemma get_self_dj_model_unchanged (w : World) : snd (get_self_dj_model w) = w.
Proof. unfold get_self_dj_model. destruct (self_dj_model w); reflexivity. Qed.

Lemma keeps_manager_update_cls (obj : pyobj) (model r : string) (f : ModelCls -> ModelCls) :
  keeps (manager_holds obj model) (modify (update_cls r f)).
Proof. intros w Hw. exact Hw. Qed.

Lemma keeps_manager_set_USERNAME_FIELD (obj : pyobj) (model : string) (o : pyobj) (v : string) :
  keeps (manager_holds obj model) (set_USERNAME_FIELD o v).
Proof.
  destruct o; try (apply keeps_unchanged; reflexivity).
  apply keeps_manager_update_cls.
Qed.

Lemma keeps_manager_set_REQUIRED_FIELDS (obj : pyobj) (model : string) (o : pyobj)
    (v : list string) :
  keeps (manager_holds obj model) (set_REQUIRED_FIELDS o v).
Proof.
  destruct o; try (apply keeps_unchanged; reflexivity).
  apply keeps_manager_update_cls.
Qed.

Lemma keeps_manager_Field_contribute_to_class (obj : pyobj) (model : string)
    (f : CharField) (o : pyobj) (name : string) :
  keeps (manager_holds obj model) (Field_contribute_to_class f o name).
Proof.
  destruct o; try (apply keeps_unchanged; reflexivity).
  apply keeps_manager_update_cls.
Qed.

Ltac keep_manager :=
  repeat first
    [ apply keeps_manager_set_USERNAME_FIELD
    | apply keeps_manager_set_REQUIRED_FIELDS
    | apply keeps_manager_Field_contribute_to_class
    | apply keeps_for_each; intros ?
    | apply keeps_unchanged;
        first [ apply get_USERNAME_FIELD_unchanged
              | apply get_REQUIRED_FIELDS_unchanged
              | apply get_self_dj_model_unchanged
              | reflexivity ]
    | apply keeps_bind; [|intros ?] ].

Lemma contribute_to_class_no_USERNAME_FIELD
    settings import_module (model name : string) (w : World) (d : Document) :
  fst (_get_user_document settings import_module w) = Return (PyDocument d) ->
  USERNAME_FIELD d = None ->
  fst (contribute_to_class settings import_module model name w)
  = Raise (Exc AttributeError "USERNAME_FIELD").
Proof.
  intros Hdoc Hp. unfold contribute_to_class.
  run. run. run.
  run_with ltac:(apply (_get_user_document_at _ _ w _ _ Hdoc)).
  run. run.
  stop_with ltac:(apply (get_USERNAME_FIELD_missing _ _ d); [reflexivity|exact Hp]).
  reflexivity.
Qed.

Lemma contribute_to_class_no_REQUIRED_FIELDS
    settings import_module (model name : string) (w : World)
    (d : Document) (p : string) :
  fst (_get_user_document settings import_module w) = Return (PyDocument d) ->
  USERNAME_FIELD d = Some p ->
  REQUIRED_FIELDS d = None ->
  fst (contribute_to_class settings import_module model name w)
  = Raise (Exc AttributeError "REQUIRED_FIELDS").
Proof.
  intros Hdoc Hp Hrs. unfold contribute_to_class.
  run. run. run.
  run_with ltac:(apply (_get_user_document_at _ _ w _ _ Hdoc)).
  run. run.
  run_with ltac:(apply (get_USERNAME_FIELD_doc _ _ d p); [reflexivity|exact Hp]).
  run_dj. run. cbv zeta. run_dj. run_dj.
  run_with ltac:(eapply get_USERNAME_FIELD_cls; [apply lookup_insert_eq|reflexivity]).
  run. run.
  stop_with ltac:(apply (get_REQUIRED_FIELDS_missing _ _ d); [reflexivity|exact Hrs]).
  reflexivity.
Qed.

(** X13: class contribution returns only with the manager bound.  Whenever it
    returns, resolution had returned an object, [self.model] is that object
    and [self.dj_model] is the class it was called on; and if the object is
    a document class, the class declares both attributes and the relational
    class now carries their values. *)
Theorem contribute_to_class_returns_only_bound
    settings import_module (model name : string) (w w' : World) :
  contribute_to_class settings import_module model name w = (Return tt, w') ->
  exists obj,
    fst (_get_user_document settings import_module w) = Return obj /\
    self_model w' = obj /\
    self_dj_model w' = Some (PyModelClass model) /\
    (forall d, obj = PyDocument d ->
       exists p rs,
         USERNAME_FIELD d = Some p /\ REQUIRED_FIELDS d = Some rs /\
         cls_USERNAME_FIELD (cls_of w' model) = Some p /\
         cls_REQUIRED_FIELDS (cls_of w' model) = Some rs).
Proof.
  intros Hrun.
  destruct (fst (_get_user_document settings import_module w)) as [obj|e] eqn:Hres.
  2:{ destruct (contribute_to_class_resolution_fails _ _ model name _ _ Hres)
        as (w1 & Hfail & _). rewrite Hfail in Hrun. discriminate. }
  exists obj. split; [reflexivity|].
  assert (Hheld : manager_holds obj model w').
  { replace w' with (snd (contribute_to_class settings import_module model name w))
      by (rewrite Hrun; reflexivity).
    unfold contribute_to_class. run. run. run.
    run_with ltac:(apply (_get_user_document_at _ _ w _ _ Hres)).
    run. apply (keeps_apply (manager_holds obj model)); [|split; reflexivity].
    cbv zeta. keep_manager. }
  destruct Hheld as [Hm Hdj]. split; [exact Hm|]. split; [exact Hdj|].
  intros d ->.
  destruct (USERNAME_FIELD d) as [p|] eqn:Hp.
  2:{ pose proof (contribute_to_class_no_USERNAME_FIELD _ _ model name _ _ Hres Hp) as Hf.
      rewrite Hrun in Hf. discriminate. }
  destruct (REQUIRED_FIELDS d) as [rs|] eqn:Hrs.
  2:{ pose proof (contribute_to_class_no_REQUIRED_FIELDS _ _ model name _ _ _ Hres Hp Hrs) as Hf.
      rewrite Hrun in Hf. discriminate. }
  exists p, rs. split; [reflexivity|]. split; [reflexivity|].
  pose proof (contribute_to_class_document _ _ model name _ d p rs Hres Hp Hrs) as Hok.
  rewrite Hrun in Hok. injection Hok as ->.
  clear Hm Hdj Hrun. set (c0 := cls_of w model). clearbody c0.
  unfold cls_of. cbn [classes]. rewrite lookup_insert_eq. split; reflexivity.
Qed.

Lemma contribute_to_class_returns_only_bound_witness :
  exists obj,
    fst (_get_user_document Deployment.custom Deployment.import_module
           Deployment.initial) = Return obj /\
    self_model
      (snd (contribute_to_class Deployment.custom Deployment.import_module
              "MongoUser" "objects" Deployment.initial)) = obj /\
    self_dj_model
      (snd (contribute_to_class Deployment.custom Deployment.import_module
              "MongoUser" "objects" Deployment.initial))
      = Some (PyModelClass "MongoUser") /\
    (forall d, obj = PyDocument d ->
       exists p rs,
         USERNAME_FIELD d = Some p /\ REQUIRED_FIELDS d = Some rs /\
         cls_USERNAME_FIELD
           (cls_of (snd (contribute_to_class Deployment.custom
                           Deployment.import_module "MongoUser" "objects"
                           Deployment.initial)) "MongoUser") = Some p /\
         cls_REQUIRED_FIELDS
           (cls_of (snd (contribute_to_class Deployment.custom
                           Deployment.import_module "MongoUser" "objects"
                           Deployment.initial)) "MongoUser") = Some rs).
Proof.
  apply (contribute_to_class_returns_only_bound
           Deployment.custom Deployment.import_module "MongoUser" "objects"
           Deployment.initial).
  vm_compute. reflexivity.
Defined.
